(** * Recruitment dashboard analytics (script.js)

    A shallow embedding of the analytics layer of [script.js]: the
    conversion funnel, the stage-duration averages, the pipeline-stage
    breakdown, the per-recruiter aggregates and the alert rules.

    Conventions of the embedding:
    - the global [dashboardData] is an explicit argument of every function;
    - a JavaScript Number is a value of [number]: a finite value carried
      as an exact rational, or one of NaN, +Infinity, -Infinity.  The
      special cases of the arithmetic (0/0, x/0, Infinity - Infinity, ...)
      follow ECMAScript; rounding to binary64 is not modelled and the two
      zeros are identified (they are [===] in JavaScript);
    - an application record is a string-keyed object whose fields hold
      text or [null]; a missing key reads as [undefined]; the counts of the
      aggregates are integers and the days a posting is open a rational;
    - the object [stats] of [calculateRecruiterPerformance] is a finite map
      keyed by the owner's property key (owner names are taken not to
      shadow a member of [Object.prototype]). *)

From Stdlib Require Import QArith Qabs Qround ZArith Lia Ascii String Sorted Permutation.
From stdpp Require Import gmap strings list fin_maps pretty.

Local Open Scope Z_scope.

(* ===================================================================== *)
(** ** JavaScript numbers *)
(* ===================================================================== *)

Module JS.

Inductive number : Type :=
  | Finite (q : Q)
  | NaN
  | PosInf
  | NegInf.

Definition Qzero (q : Q) : bool := Z.eqb (Qnum q) 0.
Definition Qneg (q : Q) : bool := Z.ltb (Qnum q) 0.
Definition Qltb (a b : Q) : bool :=
  Z.ltb (Qnum a * Zpos (Qden b)) (Qnum b * Zpos (Qden a)).

Definition of_Z (z : Z) : number := Finite (inject_Z z).
Definition of_nat (n : nat) : number := of_Z (Z.of_nat n).

Definition neg (a : number) : number :=
  match a with
  | Finite q => Finite (Qred (- q))
  | NaN => NaN
  | PosInf => NegInf
  | NegInf => PosInf
  end.

(** [a + b] *)
Definition add (a b : number) : number :=
  match a, b with
  | NaN, _ | _, NaN => NaN
  | PosInf, NegInf | NegInf, PosInf => NaN
  | PosInf, _ | _, PosInf => PosInf
  | NegInf, _ | _, NegInf => NegInf
  | Finite x, Finite y => Finite (Qred (x + y))
  end.

(** [a - b] *)
Definition sub (a b : number) : number := add a (neg b).

(** The infinity of the sign of [q] ([q] not zero), flipped when [flip]. *)
Definition inf_signed (flip : bool) (q : Q) : number :=
  if xorb flip (Qneg q) then NegInf else PosInf.

(** [a * b] *)
Definition mul (a b : number) : number :=
  match a, b with
  | NaN, _ | _, NaN => NaN
  | Finite x, Finite y => Finite (Qred (x * y))
  | PosInf, Finite q | Finite q, PosInf =>
      if Qzero q then NaN else inf_signed false q
  | NegInf, Finite q | Finite q, NegInf =>
      if Qzero q then NaN else inf_signed true q
  | PosInf, PosInf | NegInf, NegInf => PosInf
  | PosInf, NegInf | NegInf, PosInf => NegInf
  end.

(** [a / b]: 0/0 is NaN, a non-zero value over 0 is an infinity. *)
Definition div (a b : number) : number :=
  match a, b with
  | NaN, _ | _, NaN => NaN
  | Finite x, Finite y =>
      if Qzero y then (if Qzero x then NaN else inf_signed false x)
      else Finite (Qred (x / y))
  | Finite _, (PosInf | NegInf) => Finite 0
  | PosInf, Finite q => inf_signed false q
  | NegInf, Finite q => inf_signed true q
  | (PosInf | NegInf), (PosInf | NegInf) => NaN
  end.

(** [a < b]; any comparison with NaN is false. *)
Definition lt (a b : number) : bool :=
  match a, b with
  | NaN, _ | _, NaN => false
  | Finite x, Finite y => Qltb x y
  | NegInf, (Finite _ | PosInf) => true
  | Finite _, PosInf => true
  | _, _ => false
  end.

(** [a > b] *)
Definition gt (a b : number) : bool := lt b a.

(** Equality of numbers: finite values are compared as rationals. *)
Definition eqv (a b : number) : Prop :=
  match a, b with
  | Finite x, Finite y => x == y
  | NaN, NaN | PosInf, PosInf | NegInf, NegInf => True
  | _, _ => False
  end.

End JS.

Abbreviation number := JS.number.

(* ===================================================================== *)
(** ** The dataset *)
(* ===================================================================== *)

(** What a field of an application record holds: text, [null], or nothing
    at all (a missing key reads as [undefined]). *)
Inductive value : Type :=
  | Undefined
  | Null
  | Str (s : string).

(** The condition of [if (v)] and of a [filter] callback. *)
Definition truthy (v : value) : bool :=
  match v with
  | Str s => negb (String.eqb s "")
  | Undefined | Null => false
  end.

(** The property key that [obj[v]] uses. *)
Definition ToPropertyKey (v : value) : string :=
  match v with
  | Undefined => "undefined"
  | Null => "null"
  | Str s => s
  end.

(** [d[k]] on an application record. *)
Definition get (d : gmap string value) (k : string) : value :=
  default Undefined (d !! k).

Record StatusAggregate : Type := {
  Application_State : string;
  Applicants : Z
}.

Record WeeklyPoint : Type := {
  Week_of_APPLICATION_DATE : string;
  CountDistinct_of_APPLICANT_ID : Z
}.

Record JobAggregate : Type := {
  Job_Name : string;
  Job_Owner : string;
  Total_Applicants : Z;
  Days_Open : Q
}.

Record Dataset : Type := {
  applicationDetails : list (gmap string value);
  applicantsByStatus : list StatusAggregate;
  applicationsOverTime : list WeeklyPoint;
  byTeamJob : list JobAggregate
}.

(** [data.filter(d => d[k]).length] *)
Definition count_present (k : string) (data : list (gmap string value)) : nat :=
  length (List.filter (fun d => truthy (get d k)) data).

(* ===================================================================== *)
(** ** Conversion funnel *)
(* ===================================================================== *)

Module Funnel.

Record t : Type := {
  applications : nat;
  viewed : nat;
  viewedRate : number;
  interviewed : nat;
  interviewRate : number;
  offered : nat;
  offerRate : number;
  hired : nat;
  hireRate : number
}.

End Funnel.

Definition calculateConversionFunnel (dashboardData : Dataset) : Funnel.t :=
  let total := length (applicationDetails dashboardData) in
  let viewed := count_present "Viewed By" (applicationDetails dashboardData) in
  let interviewed := count_present "Interview Date" (applicationDetails dashboardData) in
  let offered := count_present "Offer Date" (applicationDetails dashboardData) in
  let hired := count_present "Hire Date" (applicationDetails dashboardData) in
  {| Funnel.applications := total;
     Funnel.viewed := viewed;
     Funnel.viewedRate := JS.div (JS.of_nat viewed) (JS.of_nat total);
     Funnel.interviewed := interviewed;
     Funnel.interviewRate := JS.div (JS.of_nat interviewed) (JS.of_nat total);
     Funnel.offered := offered;
     Funnel.offerRate := JS.div (JS.of_nat offered) (JS.of_nat total);
     Funnel.hired := hired;
     Funnel.hireRate := JS.div (JS.of_nat hired) (JS.of_nat total) |}.

(* ===================================================================== *)
(** ** Stage durations *)
(* ===================================================================== *)

Section TimeMetrics.

(** [Date.parse] of the host: the time value in milliseconds, NaN for a
    string it does not recognise. *)
Variable Date_parse : string -> number.

(** The time value of [new Date(v)]. *)
Definition new_Date (v : value) : number :=
  match v with
  | Str s => Date_parse s
  | Null => JS.of_Z 0
  | Undefined => JS.NaN
  end.

(** [d => d[startField] && d[endField]] as a condition. *)
Definition has_both (startField endField : string) (d : gmap string value) : bool :=
  truthy (get d startField) && truthy (get d endField).

(** The body of the [reduce] callback: the days between the two dates. *)
Definition days_between (startField endField : string) (record : gmap string value) : number :=
  let start := new_Date (get record startField) in
  let end_ := new_Date (get record endField) in
  JS.div (JS.sub end_ start) (JS.of_Z (1000 * 60 * 60 * 24)).

Definition calculateAverageDays
    (data : list (gmap string value)) (startField endField : string) : number :=
  let validRecords := List.filter (has_both startField endField) data in
  if Nat.eqb (length validRecords) 0 then JS.of_Z 0
  else
    let totalDays :=
      fold_left (fun sum record => JS.add sum (days_between startField endField record))
                validRecords (JS.of_Z 0) in
    JS.div totalDays (JS.of_nat (length validRecords)).

Record TimeMetrics : Type := {
  appToView : number;
  viewToInterview : number;
  interviewToOffer : number;
  appToOffer : number
}.

Definition calculateTimeMetrics (dashboardData : Dataset) : TimeMetrics :=
  let details := applicationDetails dashboardData in
  {| appToView := calculateAverageDays details "Application Date" "Viewed Date";
     viewToInterview := calculateAverageDays details "Viewed Date" "Interview Date";
     interviewToOffer := calculateAverageDays details "Interview Date" "Offer Date";
     appToOffer := calculateAverageDays details "Application Date" "Offer Date" |}.

End TimeMetrics.

(* ===================================================================== *)
(** ** Pipeline breakdown *)
(* ===================================================================== *)

Definition earlyStage_statuses : list string :=
  ["New"; "Initial Contact Attempted"; "2nd Contact Attempted"; "3rd Contact Attempted"].
Definition activeEngagement_statuses : list string :=
  ["In Communication"; "Interview Scheduled"; "Interview Cancelled"].
Definition advancedStage_statuses : list string :=
  ["Sent Documents"; "Documents Signed"].
Definition closed_statuses : list string :=
  ["Not Qualified"; "No Offer Made"; "Sent Application"].

(** [statuses.includes(label)] *)
Definition includes (statuses : list string) (label : string) : bool :=
  existsb (String.eqb label) statuses.

(** [.reduce((sum, s) => sum + s.Applicants, 0)] *)
Definition sum_Applicants (l : list StatusAggregate) : Z :=
  fold_left (fun sum s => sum + Applicants s) l 0.

Record Bucket : Type := {
  count : Z;
  percentage : number
}.

(** The body of the loop over the categories. *)
Definition bucket_of (statusData : list StatusAggregate) (total : Z) (statuses : list string) : Bucket :=
  let count :=
    sum_Applicants (List.filter (fun s => includes statuses (Application_State s)) statusData) in
  {| count := count;
     percentage := JS.mul (JS.div (JS.of_Z count) (JS.of_Z total)) (JS.of_Z 100) |}.

Record PipelineBreakdown : Type := {
  earlyStage : Bucket;
  activeEngagement : Bucket;
  advancedStage : Bucket;
  closed : Bucket
}.

(** The loop runs over the four entries of [statusCategories], in the
    order of the literal, and sets one key of [breakdown] at each turn. *)
Definition calculatePipelineBreakdown (dashboardData : Dataset) : PipelineBreakdown :=
  let statusData := applicantsByStatus dashboardData in
  let total := sum_Applicants statusData in
  {| earlyStage := bucket_of statusData total earlyStage_statuses;
     activeEngagement := bucket_of statusData total activeEngagement_statuses;
     advancedStage := bucket_of statusData total advancedStage_statuses;
     closed := bucket_of statusData total closed_statuses |}.

(* ===================================================================== *)
(** ** Alerts *)
(* ===================================================================== *)

Inductive Severity : Type := CRITICAL | HIGH | MEDIUM.

Record Alert : Type := {
  severity : Severity;
  icon : string;
  title : string;
  message : string
}.

(** [x.toFixed(1)]: the nearest tenth, the larger one on a tie, printed
    with one decimal (values below 1e21). *)
Definition toFixed1 (x : number) : string :=
  match x with
  | JS.NaN => "NaN"
  | JS.PosInf => "Infinity"
  | JS.NegInf => "-Infinity"
  | JS.Finite q =>
      let n := Qfloor (Qabs q * 10 + (1 # 2))%Q in
      (if JS.Qneg q then "-" else "")
        +:+ pretty (n / 10) +:+ "." +:+ pretty (n mod 10)
  end.

(** [alerts.push(a)] *)
Definition push (alerts : list Alert) (a : Alert) : list Alert := alerts ++ [a].

Definition zero_hires (funnel : Funnel.t) : bool :=
  Nat.eqb (Funnel.hired funnel) 0 && Nat.ltb 0 (Funnel.offered funnel).

Definition bottleneck (pipeline : PipelineBreakdown) : bool :=
  JS.gt (percentage (advancedStage pipeline)) (JS.of_Z 40).

(** [weeklyTrend[weeklyTrend.length - k]['CountDistinct of APPLICANT_ID']],
    which the evaluator reads for [k] = 1, 2 and a series of two points
    at least. *)
Definition week_from_end (weeklyTrend : list WeeklyPoint) (k : nat) : Z :=
  default 0 (CountDistinct_of_APPLICANT_ID <$> weeklyTrend !! (length weeklyTrend - k)%nat).

Definition volume_decline (weeklyTrend : list WeeklyPoint) : bool :=
  Nat.leb 2 (length weeklyTrend) &&
  JS.lt (JS.of_Z (week_from_end weeklyTrend 1))
        (JS.mul (JS.of_Z (week_from_end weeklyTrend 2)) (JS.Finite (1 # 2))).

Definition staleJobs (jobs : list JobAggregate) : list JobAggregate :=
  List.filter (fun job => JS.gt (JS.Finite (Days_Open job)) (JS.of_Z 300)) jobs.

Definition zero_hires_alert (funnel : Funnel.t) : Alert :=
  {| severity := CRITICAL;
     icon := "üö®";
     title := "Zero Hires from Offers";
     message := pretty (Funnel.offered funnel) +:+ " offers have been extended but 0 hires have been completed. Immediate action required to identify and resolve onboarding bottlenecks." |}.

Definition bottleneck_alert (pipeline : PipelineBreakdown) : Alert :=
  {| severity := HIGH;
     icon := "‚ö†Ô∏è";
     title := "Pipeline Bottleneck Detected";
     message := toFixed1 (percentage (advancedStage pipeline)) +:+ "% of applications are stuck in the documentation stage. Review document requirements and candidate support processes." |}.

Definition volume_decline_alert (lastWeek prevWeek : Z) : Alert :=
  {| severity := MEDIUM;
     icon := "üìâ";
     title := "Application Volume Decline";
     message := "Most recent week shows " +:+ pretty lastWeek +:+ " application(s), down from " +:+ pretty prevWeek +:+ ". Consider refreshing job postings or expanding sourcing channels." |}.

Definition stale_postings_alert (n : nat) : Alert :=
  {| severity := MEDIUM;
     icon := "üìã";
     title := "Stale Job Postings";
     message := pretty n +:+ " job posting(s) have been open for over 300 days with minimal traction. Consider closing or refreshing these positions." |}.

Definition identifyCriticalIssues (dashboardData : Dataset) : list Alert :=
  let alerts := [] in
  let funnel := calculateConversionFunnel dashboardData in
  let pipeline := calculatePipelineBreakdown dashboardData in
  let weeklyTrend := applicationsOverTime dashboardData in
  (* Check for zero hires *)
  let alerts :=
    if zero_hires funnel then push alerts (zero_hires_alert funnel) else alerts in
  (* Check for pipeline bottleneck *)
  let alerts :=
    if bottleneck pipeline then push alerts (bottleneck_alert pipeline) else alerts in
  (* Check for declining volume *)
  let alerts :=
    if volume_decline weeklyTrend
    then push alerts (volume_decline_alert (week_from_end weeklyTrend 1)
                                           (week_from_end weeklyTrend 2))
    else alerts in
  (* Check for stale job postings *)
  let staleJobs := staleJobs (byTeamJob dashboardData) in
  let alerts :=
    if Nat.ltb 0 (length staleJobs)
    then push alerts (stale_postings_alert (length staleJobs))
    else alerts in
  alerts.

(* ===================================================================== *)
(** ** Recruiter performance *)
(* ===================================================================== *)

Module Recruiter.

(** A group while the records are being counted. *)
Record tally : Type := {
  t_applications : nat;
  t_viewed : nat;
  t_interviewed : nat;
  t_offered : nat
}.

(** A group of the result, with its three rates. *)
Record t : Type := {
  applications : nat;
  viewed : nat;
  interviewed : nat;
  offered : nat;
  viewRate : number;
  interviewRate : number;
  offerRate : number
}.

Definition fresh : tally :=
  {| t_applications := 0; t_viewed := 0; t_interviewed := 0; t_offered := 0 |}.

Definition incr_applications (s : tally) : tally :=
  {| t_applications := S (t_applications s); t_viewed := t_viewed s;
     t_interviewed := t_interviewed s; t_offered := t_offered s |}.
Definition incr_viewed (s : tally) : tally :=
  {| t_applications := t_applications s; t_viewed := S (t_viewed s);
     t_interviewed := t_interviewed s; t_offered := t_offered s |}.
Definition incr_interviewed (s : tally) : tally :=
  {| t_applications := t_applications s; t_viewed := t_viewed s;
     t_interviewed := S (t_interviewed s); t_offered := t_offered s |}.
Definition incr_offered (s : tally) : tally :=
  {| t_applications := t_applications s; t_viewed := t_viewed s;
     t_interviewed := t_interviewed s; t_offered := S (t_offered s) |}.

(** [count / applications * 100] *)
Definition rate (n applications : nat) : number :=
  JS.mul (JS.div (JS.of_nat n) (JS.of_nat applications)) (JS.of_Z 100).

(** The body of the second loop: the rates are added to the group. *)
Definition with_rates (s : tally) : t :=
  {| applications := t_applications s;
     viewed := t_viewed s;
     interviewed := t_interviewed s;
     offered := t_offered s;
     viewRate := rate (t_viewed s) (t_applications s);
     interviewRate := rate (t_interviewed s) (t_applications s);
     offerRate := rate (t_offered s) (t_applications s) |}.

End Recruiter.

(** The body of the [forEach] callback. *)
Definition tally_application
    (stats : gmap string Recruiter.tally) (app : gmap string value)
    : gmap string Recruiter.tally :=
  let owner := ToPropertyKey (get app "Job Owner") in
  let stats :=
    match stats !! owner with
    | None => <[owner := Recruiter.fresh]> stats
    | Some _ => stats
    end in
  let stats := alter Recruiter.incr_applications owner stats in
  let stats :=
    if truthy (get app "Viewed By") then alter Recruiter.incr_viewed owner stats else stats in
  let stats :=
    if truthy (get app "Interview Date")
    then alter Recruiter.incr_interviewed owner stats else stats in
  let stats :=
    if truthy (get app "Offer Date") then alter Recruiter.incr_offered owner stats else stats in
  stats.

Definition calculateRecruiterPerformance (dashboardData : Dataset) : gmap string Recruiter.t :=
  let stats := foldl tally_application ∅ (applicationDetails dashboardData) in
  (* Calculate rates *)
  Recruiter.with_rates <$> stats.

(* ===================================================================== *)
(** ** A host [Date.parse] for the date-only form YYYY-MM-DD *)
(* ===================================================================== *)

Module IsoDate.

Definition digit (c : ascii) : option Z :=
  let n := Z.of_nat (nat_of_ascii c) in
  if (48 <=? n) && (n <=? 57) then Some (n - 48) else None.

Definition number_of (cs : list ascii) : option Z :=
  foldl (fun acc c => a ← acc; d ← digit c; Some (10 * a + d)) (Some 0) cs.

Definition leap (y : Z) : bool :=
  ((y mod 4 =? 0) && negb (y mod 100 =? 0)) || (y mod 400 =? 0).

(** Days from the epoch to the first of January of year [y]. *)
Definition DayFromYear (y : Z) : Z :=
  365 * (y - 1970) + (y - 1969) / 4 - (y - 1901) / 100 + (y - 1601) / 400.

Definition days_before_month (y m : Z) : Z :=
  default 0 ([0; 31; 59; 90; 120; 151; 181; 212; 243; 273; 304; 334] !! Z.to_nat (m - 1))
  + (if leap y && (3 <=? m) then 1 else 0).

Definition days_in_month (y m : Z) : Z :=
  if m =? 2 then (if leap y then 29 else 28)
  else if (m =? 4) || (m =? 6) || (m =? 9) || (m =? 11) then 30 else 31.

Definition msPerDay : Z := 86400000.

(** UTC midnight of the given day, in milliseconds; NaN for a month or a
    day out of range. *)
Definition time_of (y m d : Z) : number :=
  if (1 <=? m) && (m <=? 12) && (1 <=? d) && (d <=? days_in_month y m)
  then JS.of_Z ((DayFromYear y + days_before_month y m + d - 1) * msPerDay)
  else JS.NaN.

Definition parse (s : string) : number :=
  match s with
  | String y1 (String y2 (String y3 (String y4 (String "-"%char
      (String m1 (String m2 (String "-"%char (String d1 (String d2 EmptyString))))))))) =>
      match number_of [y1; y2; y3; y4], number_of [m1; m2], number_of [d1; d2] with
      | Some y, Some m, Some d => time_of y m d
      | _, _, _ => JS.NaN
      end
  | _ => JS.NaN
  end.

End IsoDate.

(* ===================================================================== *)
(** * Vocabulary of the properties *)
(* ===================================================================== *)

Definition zero_hires_title : string := "Zero Hires from Offers".
Definition bottleneck_title : string := "Pipeline Bottleneck Detected".
Definition volume_decline_title : string := "Application Volume Decline".
Definition stale_postings_title : string := "Stale Job Postings".

(** The four rules in the order in which the evaluator checks them: for
    each one whether it fires on the dataset and the alert it pushes. *)
Definition rules (dashboardData : Dataset) : list (bool * Alert) :=
  let funnel := calculateConversionFunnel dashboardData in
  let pipeline := calculatePipelineBreakdown dashboardData in
  let weeklyTrend := applicationsOverTime dashboardData in
  let stale := staleJobs (byTeamJob dashboardData) in
  [ (zero_hires funnel, zero_hires_alert funnel);
    (bottleneck pipeline, bottleneck_alert pipeline);
    (volume_decline weeklyTrend,
     volume_decline_alert (week_from_end weeklyTrend 1) (week_from_end weeklyTrend 2));
    (Nat.ltb 0 (length stale), stale_postings_alert (length stale)) ].

(** A rule has fired when an alert with its title is in the result. *)
Definition fired (t : string) (alerts : list Alert) : Prop :=
  exists a, In a alerts /\ title a = t.

Definition count_severity (sev : Severity) (alerts : list Alert) : nat :=
  length (List.filter
            (fun a => match severity a, sev with
                      | CRITICAL, CRITICAL | HIGH, HIGH | MEDIUM, MEDIUM => true
                      | _, _ => false
                      end) alerts).

(** [s] occurs in [t]. *)
Definition occurs_in (s t : string) : Prop :=
  exists pre post, t = pre +:+ s +:+ post.

Definition when {A} (b : bool) (a : A) : list A := if b then [a] else [].

(** The same dataset with another status collection. *)
Definition with_statuses (ds : Dataset) (l : list StatusAggregate) : Dataset :=
  {| applicationDetails := applicationDetails ds;
     applicantsByStatus := l;
     applicationsOverTime := applicationsOverTime ds;
     byTeamJob := byTeamJob ds |}.

(** The label is in the set of one of the four categories. *)
Definition mapped (label : string) : bool :=
  includes earlyStage_statuses label || includes activeEngagement_statuses label
  || includes advancedStage_statuses label || includes closed_statuses label.

(** The sum of the counts of the entries whose label is in some set. *)
Definition mapped_total (l : list StatusAggregate) : Z :=
  sum_Applicants (List.filter (fun s => mapped (Application_State s)) l).

Definition unmapped_total (l : list StatusAggregate) : Z :=
  sum_Applicants (List.filter (fun s => negb (mapped (Application_State s))) l).

(** The sum of the four category counts. *)
Definition counts_sum (b : PipelineBreakdown) : Z :=
  count (earlyStage b) + count (activeEngagement b)
  + count (advancedStage b) + count (closed b).

(** The sum of the four percentages. *)
Definition percentages_sum (b : PipelineBreakdown) : number :=
  JS.add (JS.add (JS.add (percentage (earlyStage b)) (percentage (activeEngagement b)))
                 (percentage (advancedStage b)))
         (percentage (closed b)).

Definition buckets (b : PipelineBreakdown) : list Bucket :=
  [earlyStage b; activeEngagement b; advancedStage b; closed b].

Definition no_data : Dataset :=
  {| applicationDetails := []; applicantsByStatus := [];
     applicationsOverTime := []; byTeamJob := [] |}.

Definition status (label : string) (n : Z) : StatusAggregate :=
  {| Application_State := label; Applicants := n |}.

Definition Qsum (l : list Q) : Q := fold_right Qplus 0%Q l.

(** The days between two time values given in milliseconds. *)
Definition days_of (start_ms end_ms : Q) : Q := ((end_ms - start_ms) / 86400000)%Q.

Definition record_a_b : gmap string value :=
  {[ "a" := Str "2024-01-01"; "b" := Str "2024-01-05" ]}.
Definition record_a_only : gmap string value :=
  {[ "a" := Str "2024-01-01"; "b" := Null ]}.

(** The group a record belongs to. *)
Definition owner_of (app : gmap string value) : string :=
  ToPropertyKey (get app "Job Owner").

(** What one record adds to the counters of its group. *)
Definition bump (app : gmap string value) (s : Recruiter.tally) : Recruiter.tally :=
  {| Recruiter.t_applications := S (Recruiter.t_applications s);
     Recruiter.t_viewed :=
       (if truthy (get app "Viewed By") then 1 else 0) + Recruiter.t_viewed s;
     Recruiter.t_interviewed :=
       (if truthy (get app "Interview Date") then 1 else 0) + Recruiter.t_interviewed s;
     Recruiter.t_offered :=
       (if truthy (get app "Offer Date") then 1 else 0) + Recruiter.t_offered s |}%nat.

(** The records of a group, in the order of the collection. *)
Definition records_of (owner : string) (data : list (gmap string value))
    : list (gmap string value) :=
  List.filter (fun app => String.eqb (owner_of app) owner) data.

(** The counters of a group that consists of the given records. *)
Definition tally_of (records : list (gmap string value)) : Recruiter.tally :=
  {| Recruiter.t_applications := length records;
     Recruiter.t_viewed := count_present "Viewed By" records;
     Recruiter.t_interviewed := count_present "Interview Date" records;
     Recruiter.t_offered := count_present "Offer Date" records |}.

(** The same dataset with another collection of application records. *)
Definition with_applications (ds : Dataset) (l : list (gmap string value)) : Dataset :=
  {| applicationDetails := l;
     applicantsByStatus := applicantsByStatus ds;
     applicationsOverTime := applicationsOverTime ds;
     byTeamJob := byTeamJob ds |}.

Definition ann_viewed : gmap string value :=
  {[ "Job Owner" := Str "Ann"; "Viewed By" := Str "Bo" ]}.
Definition ann_not_viewed : gmap string value :=
  {[ "Job Owner" := Str "Ann" ]}.

(** A record that somebody viewed but that carries no view date. *)
Definition viewed_without_date : gmap string value :=
  {[ "Job Owner" := Str "Sam";
     "Application Date" := Str "2024-01-01";
     "Viewed By" := Str "Dana";
     "Interview Date" := Str "2024-01-10" ]}.

(** A record with an offer and no hire. *)
Definition offered_not_hired : gmap string value :=
  {[ "Job Owner" := Str "Ann"; "Offer Date" := Str "2024-03-01" ]}.

(** A dataset on which the four rules fire: three offers and no hire, five
    applicants of eleven in the advanced stage, a week of four after a week
    of ten, and a posting open for 301 days. *)
Definition all_rules_fire : Dataset :=
  {| applicationDetails := [offered_not_hired; offered_not_hired; offered_not_hired];
     applicantsByStatus := [status "Sent Documents" 5; status "New" 6];
     applicationsOverTime :=
       [ {| Week_of_APPLICATION_DATE := "2024-02-19"; CountDistinct_of_APPLICANT_ID := 10 |};
         {| Week_of_APPLICATION_DATE := "2024-02-26"; CountDistinct_of_APPLICANT_ID := 4 |} ];
     byTeamJob :=
       [ {| Job_Name := "Caregiver"; Job_Owner := "Ann";
            Total_Applicants := 3; Days_Open := 301 |} ] |}.

(* ===================================================================== *)
(** * The presentation layer *)
(* ===================================================================== *)

(** ** Header: the period the data covers *)

(** [Math.min] and [Math.max] on two values: NaN as soon as one is. *)
Definition min2 (a b : number) : number :=
  match a, b with
  | JS.NaN, _ | _, JS.NaN => JS.NaN
  | _, _ => if JS.lt b a then b else a
  end.

Definition max2 (a b : number) : number :=
  match a, b with
  | JS.NaN, _ | _, JS.NaN => JS.NaN
  | _, _ => if JS.lt a b then b else a
  end.

(** [Math.min(...values)]: +Infinity for no value at all. *)
Definition Math_min (values : list number) : number :=
  fold_left min2 values JS.PosInf.

(** [Math.max(...values)]: -Infinity for no value at all. *)
Definition Math_max (values : list number) : number :=
  fold_left max2 values JS.NegInf.

Definition max_time : Z := 8640000000000000.

(** The time value of [new Date(t)] for a number [t]: NaN (an invalid
    date) outside of the range of dates, the integral part otherwise. *)
Definition TimeClip (t : number) : number :=
  match t with
  | JS.Finite q =>
      if Qle_bool (Qabs q) (inject_Z max_time)
      then JS.of_Z (Z.quot (Qnum q) (Zpos (Qden q)))
      else JS.NaN
  | JS.NaN | JS.PosInf | JS.NegInf => JS.NaN
  end.

Section Header.

Variable Date_parse : string -> number.

(** [date.toLocaleDateString('en-US', ...)] of the host, on a time value. *)
Variable formatDate : number -> string.

(** [dashboardData.applicationDetails.map(d => new Date(d['Application Date']))] *)
Definition application_dates (dashboardData : Dataset) : list number :=
  map (fun d => new_Date Date_parse (get d "Application Date"))
      (applicationDetails dashboardData).

Definition minDate (dashboardData : Dataset) : number :=
  TimeClip (Math_min (application_dates dashboardData)).

Definition maxDate (dashboardData : Dataset) : number :=
  TimeClip (Math_max (application_dates dashboardData)).

(** The text of the element [dateRange]. *)
Definition updateHeader (dashboardData : Dataset) : string :=
  "Data Period: " +:+ formatDate (minDate dashboardData)
    +:+ " - " +:+ formatDate (maxDate dashboardData).

End Header.

(** ** Key metrics *)

Module KeyMetrics.

(** The texts of the six elements that [updateKeyMetrics] sets. *)
Record t : Type := {
  totalApplications : string;
  viewedRate : string;
  interviewRate : string;
  offerRate : string;
  hireRate : string;
  avgTimeToOffer : string
}.

End KeyMetrics.

(** [`${(rate * 100).toFixed(1)}%`] *)
Definition percent_text (rate : number) : string :=
  toFixed1 (JS.mul rate (JS.of_Z 100)) +:+ "%".

Definition updateKeyMetrics (Date_parse : string -> number) (dashboardData : Dataset)
    : KeyMetrics.t :=
  let funnel := calculateConversionFunnel dashboardData in
  let timeMetrics := calculateTimeMetrics Date_parse dashboardData in
  {| KeyMetrics.totalApplications := pretty (Funnel.applications funnel);
     KeyMetrics.viewedRate := percent_text (Funnel.viewedRate funnel);
     KeyMetrics.interviewRate := percent_text (Funnel.interviewRate funnel);
     KeyMetrics.offerRate := percent_text (Funnel.offerRate funnel);
     KeyMetrics.hireRate := percent_text (Funnel.hireRate funnel);
     KeyMetrics.avgTimeToOffer := toFixed1 (appToOffer timeMetrics) +:+ " days" |}.

(** ** The alerts section *)

(** The double quote and the line feed of the markup. *)
Definition dq : string := String "034"%char EmptyString.
Definition nl : string := String "010"%char EmptyString.

(** [alert.severity.toLowerCase()] *)
Definition Severity_toLowerCase (sev : Severity) : string :=
  match sev with
  | CRITICAL => "critical"
  | HIGH => "high"
  | MEDIUM => "medium"
  end.

Definition all_clear_html : string :=
  "<div class=" +:+ dq +:+ "alert alert-medium" +:+ dq +:+ "><div class=" +:+ dq +:+
  "alert-icon" +:+ dq +:+ ">‚úÖ</div><div class=" +:+ dq +:+ "alert-content" +:+ dq +:+
  "><div class=" +:+ dq +:+ "alert-title" +:+ dq +:+ ">All Clear</div><div class=" +:+
  dq +:+ "alert-message" +:+ dq +:+
  ">No critical issues identified in the pipeline.</div></div></div>".

Definition alert_html (alert : Alert) : string :=
  nl +:+ "        <div class=" +:+ dq +:+ "alert alert-" +:+
  Severity_toLowerCase (severity alert) +:+ dq +:+ ">" +:+ nl +:+
  "            <div class=" +:+ dq +:+ "alert-icon" +:+ dq +:+ ">" +:+ icon alert +:+
  "</div>" +:+ nl +:+ "            <div class=" +:+ dq +:+ "alert-content" +:+ dq +:+
  ">" +:+ nl +:+ "                <div class=" +:+ dq +:+ "alert-title" +:+ dq +:+
  ">" +:+ title alert +:+ "</div>" +:+ nl +:+ "                <div class=" +:+ dq +:+
  "alert-message" +:+ dq +:+ ">" +:+ message alert +:+ "</div>" +:+ nl +:+
  "            </div>" +:+ nl +:+ "        </div>" +:+ nl +:+ "    ".

(** The markup that [displayCriticalAlerts] puts in the alerts section. *)
Definition displayCriticalAlerts (dashboardData : Dataset) : string :=
  let alerts := identifyCriticalIssues dashboardData in
  if Nat.eqb (length alerts) 0 then all_clear_html
  else String.concat "" (map alert_html alerts).

(** ** The status chart *)

(** [sort((a, b) => b.Applicants - a.Applicants)] puts [a] before [b] when
    [a] has more applicants and keeps the order of entries with as many
    (the sort is stable); the sorted insertion of each entry in front of the
    entries that follow it computes that order. *)
Fixpoint insert_status (a : StatusAggregate) (sorted : list StatusAggregate)
    : list StatusAggregate :=
  match sorted with
  | [] => [a]
  | b :: rest =>
      if Applicants b <=? Applicants a then a :: b :: rest
      else b :: insert_status a rest
  end.

Definition sort_by_Applicants (l : list StatusAggregate) : list StatusAggregate :=
  fold_right insert_status [] l.

(** What the bar chart of the statuses is given. *)
Record StatusChart : Type := {
  status_labels : list string;
  status_data : list Z
}.

(** The sort is in place: the dataset keeps the sorted collection. *)
Definition renderStatusChart (dashboardData : Dataset) : Dataset * StatusChart :=
  let data := sort_by_Applicants (applicantsByStatus dashboardData) in
  (with_statuses dashboardData data,
   {| status_labels := map Application_State data;
      status_data := map Applicants data |}).

(** ** The job type chart *)

(** The body of the [forEach] callback:
    [jobCounts[jobTitle] = (jobCounts[jobTitle] || 0) + 1]. *)
Definition count_job (jobCounts : gmap string nat) (app : gmap string value)
    : gmap string nat :=
  let jobTitle := ToPropertyKey (get app "Job Title") in
  <[jobTitle := (default 0 (jobCounts !! jobTitle) + 1)%nat]> jobCounts.

Definition jobCounts (dashboardData : Dataset) : gmap string nat :=
  foldl count_job ∅ (applicationDetails dashboardData).


(** ** The job performance table *)

(** [x.toFixed(2)]: the nearest hundredth, the larger one on a tie, printed
    with two decimals (values below 1e21). *)
Definition toFixed2 (x : number) : string :=
  match x with
  | JS.NaN => "NaN"
  | JS.PosInf => "Infinity"
  | JS.NegInf => "-Infinity"
  | JS.Finite q =>
      let n := Qfloor (Qabs q * 100 + (1 # 2))%Q in
      (if JS.Qneg q then "-" else "")
        +:+ pretty (n / 100) +:+ "." +:+ pretty (n mod 100 / 10) +:+ pretty (n mod 10)
  end.

(** [(job['Total Applicants'] / job['Days Open']).toFixed(2)] *)
Definition appsPerDay (job : JobAggregate) : string :=
  toFixed2 (JS.div (JS.of_Z (Total_Applicants job)) (JS.Finite (Days_Open job))).

(** ** Vocabulary of the further properties *)

(** CRITICAL before HIGH before MEDIUM. *)
Definition severity_rank (sev : Severity) : nat :=
  match sev with
  | CRITICAL => 0
  | HIGH => 1
  | MEDIUM => 2
  end.



Definition job (total : Z) (days : Q) : JobAggregate :=
  {| Job_Name := "Caregiver"; Job_Owner := "Ann";
     Total_Applicants := total; Days_Open := days |}.

(* ===================================================================== *)
(** * Properties *)
(* ===================================================================== *)

(** ** The host date parser *)

Example parse_2024_01_01 : IsoDate.parse "2024-01-01" = JS.of_Z 1704067200000.
Proof. reflexivity. Qed.

Example parse_2024_03_01 : IsoDate.parse "2024-03-01" = JS.of_Z 1709251200000.
Proof. reflexivity. Qed.

Example parse_2023_02_29 : IsoDate.parse "2023-02-29" = JS.NaN.
Proof. reflexivity. Qed.

(** ** Numbers *)

Lemma Qltb_lt (a b : Q) : JS.Qltb a b = true <-> (a < b)%Q.
Proof. unfold JS.Qltb, Qlt. apply Z.ltb_lt. Qed.

Lemma Qzero_inject_Z (z : Z) : JS.Qzero (inject_Z z) = Z.eqb z 0.
Proof. reflexivity. Qed.

(** The comparison of two integer counts, the second one halved. *)
Lemma lt_half (a b : Z) :
  JS.lt (JS.of_Z a) (JS.mul (JS.of_Z b) (JS.Finite (1 # 2))) = true
  <-> (inject_Z a < inject_Z b * (1 # 2))%Q.
Proof.
  unfold JS.of_Z. simpl JS.mul. simpl JS.lt.
  rewrite Qltb_lt. rewrite Qred_correct. reflexivity.
Qed.

(** ** The alert rules *)

(** The pushes of the evaluator, one after the other. *)
Lemma identifyCriticalIssues_pushes (ds : Dataset) :
  identifyCriticalIssues ds =
    when (zero_hires (calculateConversionFunnel ds))
         (zero_hires_alert (calculateConversionFunnel ds))
    ++ when (bottleneck (calculatePipelineBreakdown ds))
            (bottleneck_alert (calculatePipelineBreakdown ds))
    ++ when (volume_decline (applicationsOverTime ds))
            (volume_decline_alert (week_from_end (applicationsOverTime ds) 1)
                                  (week_from_end (applicationsOverTime ds) 2))
    ++ when (Nat.ltb 0 (length (staleJobs (byTeamJob ds))))
            (stale_postings_alert (length (staleJobs (byTeamJob ds)))).
Proof.
  unfold identifyCriticalIssues, push, when.
  destruct (zero_hires _), (bottleneck _), (volume_decline _), (Nat.ltb 0 _);
    reflexivity.
Qed.

Lemma week_from_end_last (pre : list WeeklyPoint) (prev last : WeeklyPoint) :
  week_from_end (pre ++ [prev; last]) 1 = CountDistinct_of_APPLICANT_ID last
  /\ week_from_end (pre ++ [prev; last]) 2 = CountDistinct_of_APPLICANT_ID prev.
Proof.
  unfold week_from_end. rewrite length_app. simpl length. split.
  - rewrite lookup_app_r by lia.
    replace (length pre + 2 - 1 - length pre)%nat with 1%nat by lia. reflexivity.
  - rewrite lookup_app_r by lia.
    replace (length pre + 2 - 2 - length pre)%nat with 0%nat by lia. reflexivity.
Qed.

Lemma two_last {A} (l : list A) :
  (2 <= length l)%nat -> exists pre x y, l = pre ++ [x; y].
Proof.
  intros H. destruct l as [|y l _] using rev_ind; [simpl in H; lia|].
  destruct l as [|x l _] using rev_ind.
  - simpl in H. lia.
  - exists l, x, y. rewrite <- app_assoc. reflexivity.
Qed.

Lemma volume_decline_spec (weeklyTrend : list WeeklyPoint) :
  volume_decline weeklyTrend = true
  <-> exists pre prev last,
        weeklyTrend = pre ++ [prev; last]
        /\ (inject_Z (CountDistinct_of_APPLICANT_ID last)
            < inject_Z (CountDistinct_of_APPLICANT_ID prev) * (1 # 2))%Q.
Proof.
  unfold volume_decline. rewrite andb_true_iff, Nat.leb_le, lt_half. split.
  - intros [Hlen Hlt]. destruct (two_last _ Hlen) as (pre & x & y & ->).
    destruct (week_from_end_last pre x y) as [E1 E2]. rewrite E1, E2 in Hlt.
    eauto.
  - intros (pre & x & y & -> & Hlt).
    destruct (week_from_end_last pre x y) as [E1 E2]. rewrite E1, E2.
    split; [rewrite length_app; simpl; lia | exact Hlt].
Qed.

Lemma In_when {A} (b : bool) (x a : A) : In a (when b x) <-> b = true /\ a = x.
Proof.
  destruct b; simpl; split; try tauto.
  - intros [-> | []]. auto.
  - intros [_ ->]. auto.
  - intros [H _]. discriminate H.
Qed.

(** Which rule put an alert with a given title in the result. *)
Lemma fired_iff (ds : Dataset) (t : string) :
  fired t (identifyCriticalIssues ds) <->
    (zero_hires (calculateConversionFunnel ds) = true /\ t = zero_hires_title)
    \/ (bottleneck (calculatePipelineBreakdown ds) = true /\ t = bottleneck_title)
    \/ (volume_decline (applicationsOverTime ds) = true /\ t = volume_decline_title)
    \/ (Nat.ltb 0 (length (staleJobs (byTeamJob ds))) = true /\ t = stale_postings_title).
Proof.
  unfold fired. rewrite identifyCriticalIssues_pushes. split.
  - intros (a & Hin & <-).
    rewrite !in_app_iff, !In_when in Hin.
    destruct Hin as [[H ->] | [[H ->] | [[H ->] | [H ->]]]]; auto 6.
  - intros [[H ->] | [[H ->] | [[H ->] | [H ->]]]];
      (eexists; split;
       [rewrite !in_app_iff, !In_when;
        first [ left; split; [exact H | reflexivity]
              | right; left; split; [exact H | reflexivity]
              | right; right; left; split; [exact H | reflexivity]
              | right; right; right; split; [exact H | reflexivity] ]
       | reflexivity]).
Qed.

Lemma zero_hires_spec (funnel : Funnel.t) :
  zero_hires funnel = true
  <-> (0 < Funnel.offered funnel)%nat /\ Funnel.hired funnel = 0%nat.
Proof.
  unfold zero_hires. rewrite andb_true_iff, Nat.eqb_eq, Nat.ltb_lt. tauto.
Qed.

Lemma count_critical (ds : Dataset) :
  count_severity CRITICAL (identifyCriticalIssues ds)
  = if zero_hires (calculateConversionFunnel ds) then 1%nat else 0%nat.
Proof.
  rewrite identifyCriticalIssues_pushes. unfold when.
  destruct (zero_hires _), (bottleneck _), (volume_decline _), (Nat.ltb 0 _);
    reflexivity.
Qed.

Lemma zero_hires_message (funnel : Funnel.t) :
  occurs_in (pretty (Funnel.offered funnel)) (message (zero_hires_alert funnel)).
Proof. exists "". eexists. simpl. reflexivity. Qed.

(** C4. The volume-decline rule fires, with severity MEDIUM, exactly when
    the weekly series has at least two points and the count of the last one
    is strictly below half the count of the one before it; the counts
    10, 5 do not fire it and the counts 10, 4 do. *)
Theorem volume_decline_rule :
  forall ds : Dataset,
    (fired volume_decline_title (identifyCriticalIssues ds)
     <-> exists pre prev last,
           applicationsOverTime ds = pre ++ [prev; last]
           /\ (inject_Z (CountDistinct_of_APPLICANT_ID last)
               < inject_Z (CountDistinct_of_APPLICANT_ID prev) * (1 # 2))%Q)
    /\ (forall a, In a (identifyCriticalIssues ds) ->
                  title a = volume_decline_title -> severity a = MEDIUM)
    /\ (forall w1 w2,
          applicationsOverTime ds =
            [ {| Week_of_APPLICATION_DATE := w1; CountDistinct_of_APPLICANT_ID := 10 |};
              {| Week_of_APPLICATION_DATE := w2; CountDistinct_of_APPLICANT_ID := 5 |} ] ->
          ~ fired volume_decline_title (identifyCriticalIssues ds))
    /\ (forall w1 w2,
          applicationsOverTime ds =
            [ {| Week_of_APPLICATION_DATE := w1; CountDistinct_of_APPLICANT_ID := 10 |};
              {| Week_of_APPLICATION_DATE := w2; CountDistinct_of_APPLICANT_ID := 4 |} ] ->
          fired volume_decline_title (identifyCriticalIssues ds)).
Proof.
  intros ds.
  assert (Hiff : fired volume_decline_title (identifyCriticalIssues ds)
                 <-> volume_decline (applicationsOverTime ds) = true).
  { rewrite fired_iff. split.
    - intros [[_ H] | [[_ H] | [[H _] | [_ H]]]]; try discriminate H. exact H.
    - auto. }
  split; [|split; [|split]].
  - rewrite Hiff. apply volume_decline_spec.
  - intros a Hin Ht. rewrite identifyCriticalIssues_pushes in Hin.
    rewrite !in_app_iff, !In_when in Hin.
    destruct Hin as [[_ ->] | [[_ ->] | [[_ ->] | [_ ->]]]];
      try discriminate Ht; reflexivity.
  - intros w1 w2 E. rewrite Hiff, E. discriminate.
  - intros w1 w2 E. rewrite Hiff, E. reflexivity.
Qed.

(** C5. The zero-hires rule fires exactly when the funnel has offers and
    no hire; it then contributes the only CRITICAL alert of the result,
    whose message contains the offered count in decimal.  With three
    offers and no hire there is exactly one CRITICAL alert and its message
    contains "3". *)
Theorem zero_hires_rule :
  forall ds : Dataset,
    (fired zero_hires_title (identifyCriticalIssues ds)
     <-> (0 < Funnel.offered (calculateConversionFunnel ds))%nat
         /\ Funnel.hired (calculateConversionFunnel ds) = 0%nat)
    /\ ((0 < Funnel.offered (calculateConversionFunnel ds))%nat
        /\ Funnel.hired (calculateConversionFunnel ds) = 0%nat ->
        count_severity CRITICAL (identifyCriticalIssues ds) = 1%nat
        /\ exists a, In a (identifyCriticalIssues ds)
                     /\ severity a = CRITICAL
                     /\ title a = zero_hires_title
                     /\ occurs_in (pretty (Funnel.offered (calculateConversionFunnel ds)))
                                  (message a))
    /\ (~ ((0 < Funnel.offered (calculateConversionFunnel ds))%nat
           /\ Funnel.hired (calculateConversionFunnel ds) = 0%nat) ->
        count_severity CRITICAL (identifyCriticalIssues ds) = 0%nat)
    /\ (Funnel.offered (calculateConversionFunnel ds) = 3%nat ->
        Funnel.hired (calculateConversionFunnel ds) = 0%nat ->
        count_severity CRITICAL (identifyCriticalIssues ds) = 1%nat
        /\ exists a, In a (identifyCriticalIssues ds)
                     /\ severity a = CRITICAL /\ occurs_in "3" (message a)).
Proof.
  intros ds.
  assert (Hfire : zero_hires (calculateConversionFunnel ds) = true ->
            count_severity CRITICAL (identifyCriticalIssues ds) = 1%nat
            /\ exists a, In a (identifyCriticalIssues ds)
                 /\ severity a = CRITICAL
                 /\ title a = zero_hires_title
                 /\ occurs_in (pretty (Funnel.offered (calculateConversionFunnel ds)))
                              (message a)).
  { intros H. split.
    - rewrite count_critical, H. reflexivity.
    - exists (zero_hires_alert (calculateConversionFunnel ds)).
      split; [|split; [reflexivity|split; [reflexivity|apply zero_hires_message]]].
      rewrite identifyCriticalIssues_pushes, H. simpl. auto. }
  split; [|split; [|split]].
  - rewrite fired_iff, <- zero_hires_spec. split.
    + intros [[H _] | [[_ H] | [[_ H] | [_ H]]]]; try discriminate H. exact H.
    + auto.
  - intros H. apply Hfire, zero_hires_spec, H.
  - intros H. rewrite count_critical.
    destruct (zero_hires _) eqn:E; [|reflexivity].
    apply zero_hires_spec in E. contradiction.
  - intros H3 H0.
    destruct Hfire as [Hc (a & Hin & Hs & _ & Hm)].
    { apply zero_hires_spec. lia. }
    split; [exact Hc|]. exists a. rewrite H3 in Hm. auto.
Qed.

Example three_offers_no_hire :
  map (fun a => (severity a, message a))
      (identifyCriticalIssues (with_statuses all_rules_fire []))
  = [ (CRITICAL, "3 offers have been extended but 0 hires have been completed. Immediate action required to identify and resolve onboarding bottlenecks.");
      (MEDIUM, "Most recent week shows 4 application(s), down from 10. Consider refreshing job postings or expanding sourcing channels.");
      (MEDIUM, "1 job posting(s) have been open for over 300 days with minimal traction. Consider closing or refreshing these positions.") ].
Proof. vm_compute. reflexivity. Qed.

(** Nothing is kept of a list of rules exactly when none of them fires. *)
Lemma no_rule_fires {A} (l : list (bool * A)) :
  map snd (List.filter fst l) = [] <-> forall r, In r l -> fst r = false.
Proof.
  induction l as [|[b a] l IH]; simpl.
  - split; [intros _ r []|reflexivity].
  - destruct b; simpl.
    + split; [discriminate|]. intros H.
      specialize (H (true, a) (or_introl eq_refl)). discriminate H.
    + rewrite IH. split.
      * intros H r [<- | Hr]; [reflexivity | apply H, Hr].
      * intros H r Hr. apply H. right. exact Hr.
Qed.

Lemma identifyCriticalIssues_rules (ds : Dataset) :
  identifyCriticalIssues ds = map snd (List.filter fst (rules ds)).
Proof.
  rewrite identifyCriticalIssues_pushes. unfold rules, when.
  destruct (zero_hires _), (bottleneck _), (volume_decline _), (Nat.ltb 0 _);
    reflexivity.
Qed.

(** C6. The evaluator returns the alerts of the rules that fire in the
    order in which the rules are checked (zero hires, bottleneck, volume
    decline, stale postings), with no reordering, and the result is the
    empty list exactly when no rule fires. *)
Theorem alerts_in_evaluation_order :
  forall ds : Dataset,
    identifyCriticalIssues ds = map snd (List.filter fst (rules ds))
    /\ sublist (map title (identifyCriticalIssues ds))
               [zero_hires_title; bottleneck_title;
                volume_decline_title; stale_postings_title]
    /\ (identifyCriticalIssues ds = [] <-> forall r, In r (rules ds) -> fst r = false).
Proof.
  intros ds. split; [apply identifyCriticalIssues_rules|]. split.
  - rewrite identifyCriticalIssues_pushes. unfold when.
    destruct (zero_hires _), (bottleneck _), (volume_decline _), (Nat.ltb 0 _);
      simpl;
      repeat first [apply sublist_nil | apply sublist_skip | apply sublist_cons].
  - rewrite identifyCriticalIssues_rules. apply no_rule_fires.
Qed.

Example four_alerts_in_order :
  map (fun a => (severity a, title a)) (identifyCriticalIssues all_rules_fire)
  = [ (CRITICAL, zero_hires_title); (HIGH, bottleneck_title);
      (MEDIUM, volume_decline_title); (MEDIUM, stale_postings_title) ]
  /\ message (bottleneck_alert (calculatePipelineBreakdown all_rules_fire))
     = "45.5% of applications are stuck in the documentation stage. Review document requirements and candidate support processes.".
Proof. split; vm_compute; reflexivity. Qed.

Example no_alert_without_data : identifyCriticalIssues no_data = [].
Proof. reflexivity. Qed.

(** ** The conversion funnel *)

(** C1. On a dataset with no application record every rate of the funnel
    is 0/0, which is NaN and not 0: the division is not guarded. *)
Theorem funnel_rates_of_no_record :
  forall (statuses : list StatusAggregate) (weeks : list WeeklyPoint)
         (jobs : list JobAggregate),
    let funnel :=
      calculateConversionFunnel
        {| applicationDetails := []; applicantsByStatus := statuses;
           applicationsOverTime := weeks; byTeamJob := jobs |} in
    Funnel.applications funnel = 0%nat
    /\ Funnel.viewedRate funnel = JS.NaN
    /\ Funnel.interviewRate funnel = JS.NaN
    /\ Funnel.offerRate funnel = JS.NaN
    /\ Funnel.hireRate funnel = JS.NaN.
Proof. intros. repeat split. Qed.

(** ** The pipeline breakdown *)

Lemma fold_Applicants_acc (l : list StatusAggregate) (a b : Z) :
  fold_left (fun sum s => sum + Applicants s) l (a + b)
  = a + fold_left (fun sum s => sum + Applicants s) l b.
Proof.
  revert b. induction l as [|s l IH]; intros b; simpl; [reflexivity|].
  rewrite <- IH. f_equal. lia.
Qed.

Lemma fold_Applicants (l : list StatusAggregate) (a : Z) :
  fold_left (fun sum s => sum + Applicants s) l a = a + sum_Applicants l.
Proof.
  unfold sum_Applicants. rewrite <- fold_Applicants_acc. f_equal. lia.
Qed.

Lemma sum_Applicants_cons (s : StatusAggregate) (l : list StatusAggregate) :
  sum_Applicants (s :: l) = Applicants s + sum_Applicants l.
Proof. unfold sum_Applicants at 1. simpl. apply fold_Applicants. Qed.

Lemma sum_Applicants_app (l1 l2 : list StatusAggregate) :
  sum_Applicants (l1 ++ l2) = sum_Applicants l1 + sum_Applicants l2.
Proof.
  induction l1 as [|s l1 IH]; simpl; [reflexivity|].
  rewrite !sum_Applicants_cons, IH. lia.
Qed.

Lemma sum_filter_cons (p : StatusAggregate -> bool) s l :
  sum_Applicants (List.filter p (s :: l))
  = (if p s then Applicants s else 0) + sum_Applicants (List.filter p l).
Proof.
  simpl. destruct (p s); [apply sum_Applicants_cons | reflexivity].
Qed.

Lemma includes_In (statuses : list string) (label : string) :
  includes statuses label = true <-> In label statuses.
Proof.
  unfold includes. rewrite existsb_exists. split.
  - intros (x & Hx & E). apply String.eqb_eq in E. subst. exact Hx.
  - intros H. exists label. split; [exact H | apply String.eqb_refl].
Qed.

(** The four sets are pairwise disjoint: a label is in at most one. *)
Lemma categories_disjoint (label : string) :
  Z.b2z (includes earlyStage_statuses label)
  + Z.b2z (includes activeEngagement_statuses label)
  + Z.b2z (includes advancedStage_statuses label)
  + Z.b2z (includes closed_statuses label)
  = Z.b2z (mapped label).
Proof.
  unfold mapped.
  destruct (includes earlyStage_statuses label) eqn:E1;
  destruct (includes activeEngagement_statuses label) eqn:E2;
  destruct (includes advancedStage_statuses label) eqn:E3;
  destruct (includes closed_statuses label) eqn:E4;
  try reflexivity; exfalso;
  repeat match goal with
         | H : includes _ label = true |- _ => apply includes_In in H; simpl in H
         | H : _ \/ _ |- _ => destruct H as [H | H]
         | H : False |- _ => destruct H
         | H : _ = label |- _ => subst label
         | H : includes _ _ = false |- _ => clear H
         end;
  match goal with H : _ = _ |- _ => discriminate H end.
Qed.

Lemma counts_sum_mapped (ds : Dataset) :
  counts_sum (calculatePipelineBreakdown ds) = mapped_total (applicantsByStatus ds).
Proof.
  unfold counts_sum, calculatePipelineBreakdown, bucket_of, mapped_total.
  cbn [count earlyStage activeEngagement advancedStage closed].
  induction (applicantsByStatus ds) as [|s l IH]; [reflexivity|].
  rewrite !sum_filter_cons, <- IH.
  pose proof (categories_disjoint (Application_State s)) as D.
  destruct (includes earlyStage_statuses (Application_State s)),
           (includes activeEngagement_statuses (Application_State s)),
           (includes advancedStage_statuses (Application_State s)),
           (includes closed_statuses (Application_State s)),
           (mapped (Application_State s)); simpl in D; lia.
Qed.

Lemma total_split (l : list StatusAggregate) :
  sum_Applicants l = mapped_total l + unmapped_total l.
Proof.
  unfold mapped_total, unmapped_total.
  induction l as [|s l IH]; [reflexivity|].
  rewrite !sum_filter_cons, sum_Applicants_cons, IH.
  destruct (mapped _); simpl; lia.
Qed.

Lemma sum_filter_nonneg (p : StatusAggregate -> bool) (l : list StatusAggregate) :
  Forall (fun s => 0 <= Applicants s) l -> 0 <= sum_Applicants (List.filter p l).
Proof.
  induction 1 as [|s l Hs _ IH]; [reflexivity|].
  rewrite sum_filter_cons. destruct (p s); lia.
Qed.

Lemma sum_filter_zero (p : StatusAggregate -> bool) (l : list StatusAggregate) :
  Forall (fun s => 0 <= Applicants s) l ->
  (sum_Applicants (List.filter p l) = 0
   <-> Forall (fun s => p s = true -> Applicants s = 0) l).
Proof.
  induction 1 as [|s l Hs Hl IH].
  - split; [constructor | reflexivity].
  - rewrite sum_filter_cons. pose proof (sum_filter_nonneg p l Hl) as Hn.
    rewrite Forall_cons_iff, <- IH. destruct (p s); split.
    + intros H. split; [intros _|]; lia.
    + intros [H1 H2]. specialize (H1 eq_refl). lia.
    + intros H. split; [discriminate | lia].
    + intros [_ H]. lia.
Qed.

Lemma sum_filter_le (p : StatusAggregate -> bool) (l : list StatusAggregate) :
  Forall (fun s => 0 <= Applicants s) l ->
  sum_Applicants (List.filter p l) <= sum_Applicants l.
Proof.
  induction 1 as [|s l Hs _ IH]; [reflexivity|].
  rewrite sum_filter_cons, sum_Applicants_cons. destruct (p s); lia.
Qed.

(** An entry whose label is in no set is dropped by every category filter. *)
Lemma filter_unmapped (statuses : list string) (l1 l2 : list StatusAggregate) s :
  includes statuses (Application_State s) = false ->
  List.filter (fun s => includes statuses (Application_State s)) (l1 ++ s :: l2)
  = List.filter (fun s => includes statuses (Application_State s)) (l1 ++ l2).
Proof.
  intros H. rewrite !List.filter_app. simpl. rewrite H. reflexivity.
Qed.

Lemma unmapped_includes (label : string) :
  mapped label = false ->
  includes earlyStage_statuses label = false
  /\ includes activeEngagement_statuses label = false
  /\ includes advancedStage_statuses label = false
  /\ includes closed_statuses label = false.
Proof.
  unfold mapped. intros H.
  apply orb_false_elim in H as [H H4].
  apply orb_false_elim in H as [H H3].
  apply orb_false_elim in H as [H1 H2]. auto.
Qed.

Lemma percentage_finite (c t : Z) :
  t <> 0 ->
  JS.mul (JS.div (JS.of_Z c) (JS.of_Z t)) (JS.of_Z 100)
  = JS.Finite (Qred (Qred (inject_Z c / inject_Z t) * inject_Z 100)).
Proof.
  intros Ht. unfold JS.of_Z. cbn [JS.div]. rewrite Qzero_inject_Z.
  destruct (Z.eqb_spec t 0) as [E | _]; [contradiction | reflexivity].
Qed.

(** C3. When the counts are non-negative and their grand total is 0 (as
    for the empty collection) the four category counts are 0 and the four
    percentages are 0/0 * 100, which is NaN and not 0: the division is not
    guarded. *)
Theorem breakdown_of_zero_total :
  forall ds : Dataset,
    Forall (fun s => 0 <= Applicants s) (applicantsByStatus ds) ->
    sum_Applicants (applicantsByStatus ds) = 0 ->
    Forall (fun b => count b = 0 /\ percentage b = JS.NaN)
           (buckets (calculatePipelineBreakdown ds)).
Proof.
  intros ds Hpos Htot.
  assert (Hb : forall statuses,
            count (bucket_of (applicantsByStatus ds) 0 statuses) = 0
            /\ percentage (bucket_of (applicantsByStatus ds) 0 statuses) = JS.NaN).
  { intros statuses. unfold bucket_of. cbn [count percentage].
    set (p := fun s => includes statuses (Application_State s)).
    pose proof (sum_filter_le p _ Hpos) as Hle.
    pose proof (sum_filter_nonneg p _ Hpos) as Hge.
    replace (sum_Applicants (List.filter p (applicantsByStatus ds))) with 0 by lia.
    split; reflexivity. }
  unfold buckets, calculatePipelineBreakdown.
  cbn [earlyStage activeEngagement advancedStage closed]. rewrite Htot.
  repeat constructor; apply Hb.
Qed.

Lemma breakdown_of_zero_total_witness :
  Forall (fun b => count b = 0 /\ percentage b = JS.NaN)
         (buckets (calculatePipelineBreakdown no_data)).
Proof.
  apply (breakdown_of_zero_total no_data); [constructor | reflexivity].
Defined.

(** C2 as stated fails: with one applicant in "New" and one in a status
    that is in no set, the early-stage percentage is 50 and not
    1 / 1 * 100 = 100, the value over the mapped entries only. *)
Lemma percentage_counts_unmapped_entries :
  let ds := with_statuses no_data [status "New" 1; status "Hired" 1] in
  let b := earlyStage (calculatePipelineBreakdown ds) in
  percentage b = JS.Finite 50
  /\ ~ JS.eqv (percentage b)
              (JS.mul (JS.div (JS.of_Z (count b))
                              (JS.of_Z (mapped_total (applicantsByStatus ds))))
                      (JS.of_Z 100)).
Proof.
  split; [reflexivity|]. vm_compute. discriminate.
Qed.

(** C2, amended. The entries whose label is in none of the four sets are
    left out of the category counts but not of the grand total: every
    percentage is the category count over the sum of the counts of all the
    entries, times 100.  So an entry with such a label leaves the four
    counts as they are and adds its count to the denominator of the four
    percentages. *)
Theorem percentages_over_all_entries :
  forall (ds : Dataset) (l1 l2 : list StatusAggregate) (s : StatusAggregate),
    applicantsByStatus ds = l1 ++ s :: l2 ->
    mapped (Application_State s) = false ->
    map count (buckets (calculatePipelineBreakdown ds))
    = map count (buckets (calculatePipelineBreakdown (with_statuses ds (l1 ++ l2))))
    /\ counts_sum (calculatePipelineBreakdown ds) = mapped_total (l1 ++ l2)
    /\ Forall (fun b =>
                 percentage b =
                 JS.mul (JS.div (JS.of_Z (count b))
                                (JS.of_Z (sum_Applicants (l1 ++ l2) + Applicants s)))
                        (JS.of_Z 100))
              (buckets (calculatePipelineBreakdown ds)).
Proof.
  intros ds l1 l2 s E Hs.
  destruct (unmapped_includes _ Hs) as (H1 & H2 & H3 & H4).
  assert (Htot : sum_Applicants (applicantsByStatus ds)
                 = sum_Applicants (l1 ++ l2) + Applicants s).
  { rewrite E, !sum_Applicants_app, sum_Applicants_cons. lia. }
  split; [|split].
  - unfold buckets, calculatePipelineBreakdown, bucket_of.
    cbn [map count earlyStage activeEngagement advancedStage closed
         applicantsByStatus with_statuses].
    rewrite E, !filter_unmapped by assumption. reflexivity.
  - rewrite counts_sum_mapped, E. unfold mapped_total.
    rewrite !List.filter_app. simpl. rewrite Hs. reflexivity.
  - unfold buckets, calculatePipelineBreakdown, bucket_of.
    cbn [earlyStage activeEngagement advancedStage closed].
    rewrite Htot. repeat constructor.
Qed.

Lemma percentages_over_all_entries_witness :
  map count (buckets (calculatePipelineBreakdown
                        (with_statuses no_data [status "New" 1; status "Hired" 1])))
  = map count (buckets (calculatePipelineBreakdown
                          (with_statuses
                             (with_statuses no_data [status "New" 1; status "Hired" 1])
                             ([status "New" 1] ++ []))))
  /\ counts_sum (calculatePipelineBreakdown
                   (with_statuses no_data [status "New" 1; status "Hired" 1]))
     = mapped_total ([status "New" 1] ++ [])
  /\ Forall (fun b =>
               percentage b =
               JS.mul (JS.div (JS.of_Z (count b))
                              (JS.of_Z (sum_Applicants ([status "New" 1] ++ [])
                                        + Applicants (status "Hired" 1))))
                      (JS.of_Z 100))
            (buckets (calculatePipelineBreakdown
                        (with_statuses no_data [status "New" 1; status "Hired" 1]))).
Proof.
  apply (percentages_over_all_entries
           (with_statuses no_data [status "New" 1; status "Hired" 1])
           [status "New" 1] [] (status "Hired" 1)); reflexivity.
Defined.

(** C8 as stated fails: an entry with count 0 whose label is in no set
    leaves the sum of the four category counts equal to the grand total,
    so the equality does not need every label to be in the lookup table. *)
Lemma counts_equal_with_unmapped_label :
  let ds := with_statuses no_data [status "Hired" 0] in
  ~ (counts_sum (calculatePipelineBreakdown ds) = sum_Applicants (applicantsByStatus ds)
     <-> Forall (fun s => mapped (Application_State s) = true) (applicantsByStatus ds)).
Proof.
  intros ds [H _]. specialize (H eq_refl).
  apply Forall_cons_iff in H as [H _]. discriminate H.
Qed.

Lemma percentages_sum_finite (c1 c2 c3 c4 t : Z) :
  t <> 0 ->
  exists q,
    JS.add (JS.add (JS.add (JS.mul (JS.div (JS.of_Z c1) (JS.of_Z t)) (JS.of_Z 100))
                           (JS.mul (JS.div (JS.of_Z c2) (JS.of_Z t)) (JS.of_Z 100)))
                   (JS.mul (JS.div (JS.of_Z c3) (JS.of_Z t)) (JS.of_Z 100)))
           (JS.mul (JS.div (JS.of_Z c4) (JS.of_Z t)) (JS.of_Z 100))
    = JS.Finite q
    /\ (q == inject_Z (c1 + c2 + c3 + c4) / inject_Z t * 100)%Q.
Proof.
  intros Ht. rewrite !percentage_finite by exact Ht.
  eexists. split; [reflexivity|].
  rewrite !Qred_correct, !inject_Z_plus.
  assert (Hq : ~ (inject_Z t == 0)%Q).
  { intros E. apply Ht. apply (eq_sym) in E. unfold Qeq in E. simpl in E. lia. }
  change (inject_Z 100) with 100%Q. field. exact Hq.
Qed.

Lemma ratio_le_100 (m t : Z) :
  0 < t -> m <= t -> (inject_Z m / inject_Z t * 100 <= 100)%Q.
Proof.
  intros Ht Hm.
  assert (H0 : (0 < inject_Z t)%Q) by (unfold Qlt; simpl; lia).
  assert (H1 : (inject_Z m / inject_Z t <= 1)%Q).
  { apply Qle_shift_div_r; [exact H0|]. rewrite Qmult_1_l.
    rewrite <- Zle_Qle. exact Hm. }
  apply Qle_trans with (1 * 100)%Q.
  - apply Qmult_le_compat_r; [exact H1 | discriminate].
  - unfold Qle. simpl. lia.
Qed.

(** C8, amended. For non-negative counts the sum of the four category
    counts is at most the grand total, with equality exactly when every
    entry whose label is in no set has count 0; and when the grand total is
    positive the four percentages are finite and sum to
    100 * (sum of the category counts) / (grand total), which is at most
    100, and is 100 when every label is in the lookup table. *)
Theorem breakdown_completeness :
  forall ds : Dataset,
    Forall (fun s => 0 <= Applicants s) (applicantsByStatus ds) ->
    counts_sum (calculatePipelineBreakdown ds) <= sum_Applicants (applicantsByStatus ds)
    /\ (counts_sum (calculatePipelineBreakdown ds) = sum_Applicants (applicantsByStatus ds)
        <-> Forall (fun s => mapped (Application_State s) = false -> Applicants s = 0)
                   (applicantsByStatus ds))
    /\ (0 < sum_Applicants (applicantsByStatus ds) ->
        exists q,
          percentages_sum (calculatePipelineBreakdown ds) = JS.Finite q
          /\ (q == inject_Z (counts_sum (calculatePipelineBreakdown ds))
                   / inject_Z (sum_Applicants (applicantsByStatus ds)) * 100)%Q
          /\ (q <= 100)%Q
          /\ (Forall (fun s => mapped (Application_State s) = true) (applicantsByStatus ds) ->
              (q == 100)%Q)).
Proof.
  intros ds Hpos.
  pose proof (total_split (applicantsByStatus ds)) as Hsplit.
  pose proof (sum_filter_nonneg (fun s => negb (mapped (Application_State s))) _ Hpos) as Hun.
  fold (unmapped_total (applicantsByStatus ds)) in Hun.
  assert (Hzero : unmapped_total (applicantsByStatus ds) = 0
                  <-> Forall (fun s => mapped (Application_State s) = false -> Applicants s = 0)
                             (applicantsByStatus ds)).
  { unfold unmapped_total. rewrite sum_filter_zero by exact Hpos.
    apply Forall_iff. intros s. rewrite negb_true_iff. reflexivity. }
  rewrite counts_sum_mapped.
  split; [lia|]. split; [rewrite <- Hzero; lia|].
  intros Ht.
  destruct (percentages_sum_finite
              (count (earlyStage (calculatePipelineBreakdown ds)))
              (count (activeEngagement (calculatePipelineBreakdown ds)))
              (count (advancedStage (calculatePipelineBreakdown ds)))
              (count (closed (calculatePipelineBreakdown ds)))
              (sum_Applicants (applicantsByStatus ds))) as (q & Eq & Hq); [lia|].
  fold (counts_sum (calculatePipelineBreakdown ds)) in Hq.
  rewrite counts_sum_mapped in Hq.
  exists q. split; [exact Eq|]. split; [exact Hq|]. split.
  - rewrite Hq. apply ratio_le_100; lia.
  - intros Hall. rewrite Hq.
    assert (Hm : mapped_total (applicantsByStatus ds) = sum_Applicants (applicantsByStatus ds)).
    { assert (unmapped_total (applicantsByStatus ds) = 0); [|lia].
      apply Hzero. eapply Forall_impl; [exact Hall|].
      intros s H1 H2. rewrite H1 in H2. discriminate H2. }
    rewrite Hm. field. intros E. unfold Qeq in E. simpl in E. lia.
Qed.

Lemma breakdown_completeness_witness :
  let ds := with_statuses no_data [status "New" 3; status "Sent Documents" 1; status "Hired" 0] in
  counts_sum (calculatePipelineBreakdown ds) <= sum_Applicants (applicantsByStatus ds)
  /\ (counts_sum (calculatePipelineBreakdown ds) = sum_Applicants (applicantsByStatus ds)
      <-> Forall (fun s => mapped (Application_State s) = false -> Applicants s = 0)
                 (applicantsByStatus ds))
  /\ (0 < sum_Applicants (applicantsByStatus ds) ->
      exists q,
        percentages_sum (calculatePipelineBreakdown ds) = JS.Finite q
        /\ (q == inject_Z (counts_sum (calculatePipelineBreakdown ds))
                 / inject_Z (sum_Applicants (applicantsByStatus ds)) * 100)%Q
        /\ (q <= 100)%Q
        /\ (Forall (fun s => mapped (Application_State s) = true) (applicantsByStatus ds) ->
            (q == 100)%Q)).
Proof.
  intros ds. apply (breakdown_completeness ds).
  repeat constructor; simpl; lia.
Defined.

(** ** Stage durations *)

Section AverageDays.

Variable Date_parse : string -> number.
Variables startField endField : string.

(** The result depends on the records that have both fields only. *)
Lemma calculateAverageDays_filter (data data' : list (gmap string value)) :
  List.filter (has_both startField endField) data
  = List.filter (has_both startField endField) data' ->
  calculateAverageDays Date_parse data startField endField
  = calculateAverageDays Date_parse data' startField endField.
Proof. unfold calculateAverageDays. intros ->. reflexivity. Qed.

Lemma days_between_finite (record : gmap string value) (s e : Q) :
  new_Date Date_parse (get record startField) = JS.Finite s ->
  new_Date Date_parse (get record endField) = JS.Finite e ->
  exists d, days_between Date_parse startField endField record = JS.Finite d
            /\ (d == days_of s e)%Q.
Proof.
  intros Hs He. unfold days_between. rewrite Hs, He.
  eexists. split; [reflexivity|].
  unfold days_of. rewrite !Qred_correct. reflexivity.
Qed.

(** The [reduce] over records whose dates are all valid. *)
Lemma total_days_finite (start_ms end_ms : gmap string value -> Q)
      (l : list (gmap string value)) (acc : Q) :
  (forall r, In r l ->
     new_Date Date_parse (get r startField) = JS.Finite (start_ms r)
     /\ new_Date Date_parse (get r endField) = JS.Finite (end_ms r)) ->
  exists q,
    fold_left (fun sum record =>
                 JS.add sum (days_between Date_parse startField endField record))
              l (JS.Finite acc) = JS.Finite q
    /\ (q == acc + Qsum (map (fun r => days_of (start_ms r) (end_ms r)) l))%Q.
Proof.
  revert acc. induction l as [|r l IH]; intros acc H.
  - exists acc. split; [reflexivity|]. simpl. ring.
  - destruct (H r (or_introl eq_refl)) as [Hs He].
    destruct (days_between_finite r _ _ Hs He) as (d & Ed & Hd).
    simpl fold_left. rewrite Ed. cbn [JS.add].
    destruct (IH (Qred (acc + d))) as (q & Eq & Hq).
    { intros r' Hr'. apply H. right. exact Hr'. }
    exists q. split; [exact Eq|].
    rewrite Hq, Qred_correct, Hd. simpl. ring.
Qed.

End AverageDays.

(** C7. The average is taken over exactly the records in which both the
    start field and the end field are present: it is 0 when there is none,
    it is the arithmetic mean of the days between the two dates (with their
    fraction) when there are some, and a record that lacks either field
    changes nothing.  The records {a: "2024-01-01", b: "2024-01-05"} and
    {a: "2024-01-01", b: null} average 4 days. *)
Theorem average_days_over_complete_records :
  forall (Date_parse : string -> number) (data : list (gmap string value))
         (startField endField : string)
         (start_ms end_ms : gmap string value -> Q),
    (forall r, In r data -> has_both startField endField r = true ->
       new_Date Date_parse (get r startField) = JS.Finite (start_ms r)
       /\ new_Date Date_parse (get r endField) = JS.Finite (end_ms r)) ->
    (List.filter (has_both startField endField) data = [] ->
     calculateAverageDays Date_parse data startField endField = JS.Finite 0)
    /\ (List.filter (has_both startField endField) data <> [] ->
        JS.eqv (calculateAverageDays Date_parse data startField endField)
               (JS.Finite
                  (Qsum (map (fun r => days_of (start_ms r) (end_ms r))
                             (List.filter (has_both startField endField) data))
                   / inject_Z (Z.of_nat
                                 (length (List.filter (has_both startField endField) data))))))
    /\ (forall r l1 l2,
          truthy (get r startField) = false \/ truthy (get r endField) = false ->
          data = l1 ++ l2 ->
          calculateAverageDays Date_parse (l1 ++ r :: l2) startField endField
          = calculateAverageDays Date_parse data startField endField)
    /\ calculateAverageDays IsoDate.parse [record_a_b; record_a_only] "a" "b" = JS.Finite 4.
Proof.
  intros Date_parse data startField endField start_ms end_ms Hdates.
  split; [|split; [|split]].
  - intros E. unfold calculateAverageDays. rewrite E. reflexivity.
  - intros Hne. unfold calculateAverageDays.
    set (valid := List.filter (has_both startField endField) data) in *.
    destruct (Nat.eqb_spec (length valid) 0) as [E | Hlen].
    { destruct valid; [contradiction | discriminate E]. }
    destruct (total_days_finite Date_parse startField endField start_ms end_ms valid 0)
      as (q & Eq & Hq).
    { intros r Hr. apply filter_In in Hr as [Hin Hb]. apply Hdates; assumption. }
    unfold JS.of_Z at 1. change (inject_Z 0) with 0%Q. rewrite Eq.
    unfold JS.of_nat, JS.of_Z. cbn [JS.div]. rewrite Qzero_inject_Z.
    destruct (Z.eqb_spec (Z.of_nat (length valid)) 0) as [E | _]; [lia|].
    cbn [JS.eqv]. rewrite Qred_correct, Hq, Qplus_0_l. reflexivity.
  - intros r l1 l2 Hr ->. apply calculateAverageDays_filter.
    rewrite !List.filter_app. simpl.
    assert (Hb : has_both startField endField r = false).
    { unfold has_both. destruct Hr as [-> | ->];
        [reflexivity | apply andb_false_r]. }
    rewrite Hb. reflexivity.
  - vm_compute. reflexivity.
Qed.

Lemma average_days_over_complete_records_witness :
  let data := [record_a_b; record_a_only] in
  (List.filter (has_both "a" "b") data = [] ->
   calculateAverageDays IsoDate.parse data "a" "b" = JS.Finite 0)
  /\ (List.filter (has_both "a" "b") data <> [] ->
      JS.eqv (calculateAverageDays IsoDate.parse data "a" "b")
             (JS.Finite
                (Qsum (map (fun r => days_of (inject_Z 1704067200000) (inject_Z 1704412800000))
                           (List.filter (has_both "a" "b") data))
                 / inject_Z (Z.of_nat (length (List.filter (has_both "a" "b") data))))))
  /\ (forall r l1 l2,
        truthy (get r "a") = false \/ truthy (get r "b") = false ->
        data = l1 ++ l2 ->
        calculateAverageDays IsoDate.parse (l1 ++ r :: l2) "a" "b"
        = calculateAverageDays IsoDate.parse data "a" "b")
  /\ calculateAverageDays IsoDate.parse [record_a_b; record_a_only] "a" "b" = JS.Finite 4.
Proof.
  intros data.
  apply (average_days_over_complete_records IsoDate.parse data "a" "b"
           (fun _ => inject_Z 1704067200000) (fun _ => inject_Z 1704412800000)).
  intros r [<- | [<- | []]] Hb.
  - split; reflexivity.
  - discriminate Hb.
Defined.
(** ** Recruiter performance *)

Lemma tally_application_insert (stats : gmap string Recruiter.tally) (app : gmap string value) :
  tally_application stats app
  = <[owner_of app := bump app (default Recruiter.fresh (stats !! owner_of app))]> stats.
Proof.
  unfold tally_application, bump. fold (owner_of app).
  apply map_eq. intros k.
  destruct (decide (k = owner_of app)) as [-> | Hne].
  - rewrite lookup_insert_eq.
    destruct (stats !! owner_of app) as [s|] eqn:E;
      destruct (truthy (get app "Viewed By")), (truthy (get app "Interview Date")),
               (truthy (get app "Offer Date"));
      rewrite ?lookup_alter_eq, ?lookup_insert_eq, ?E; try destruct s; reflexivity.
  - rewrite lookup_insert_ne by congruence.
    destruct (stats !! owner_of app) as [s|] eqn:E;
      destruct (truthy (get app "Viewed By")), (truthy (get app "Interview Date")),
               (truthy (get app "Offer Date"));
      rewrite ?lookup_alter_ne, ?lookup_insert_ne by congruence; reflexivity.
Qed.

Lemma count_present_snoc (k : string) (l : list (gmap string value)) app :
  count_present k (l ++ [app])
  = ((if truthy (get app k) then 1 else 0) + count_present k l)%nat.
Proof.
  unfold count_present. rewrite List.filter_app, length_app. simpl.
  destruct (truthy (get app k)); simpl; lia.
Qed.

Lemma tally_of_snoc (l : list (gmap string value)) app :
  tally_of (l ++ [app]) = bump app (tally_of l).
Proof.
  unfold tally_of, bump. cbn [Recruiter.t_applications Recruiter.t_viewed
                              Recruiter.t_interviewed Recruiter.t_offered].
  rewrite !count_present_snoc, length_app. simpl length.
  f_equal. lia.
Qed.

(** After the first loop a group exists for the owners that have a record,
    and its counters are those of its records. *)
Lemma tallies_lookup (data : list (gmap string value)) (owner : string) :
  foldl tally_application ∅ data !! owner
  = match records_of owner data with
    | [] => None
    | _ :: _ => Some (tally_of (records_of owner data))
    end.
Proof.
  induction data as [|app data IH] using rev_ind; [reflexivity|].
  rewrite foldl_app. simpl foldl. rewrite tally_application_insert.
  unfold records_of in *. rewrite List.filter_app. simpl List.filter.
  destruct (String.eqb_spec (owner_of app) owner) as [<- | Hne].
  - rewrite lookup_insert_eq, IH.
    destruct (List.filter _ data) as [|x l].
    + simpl. f_equal. symmetry. apply (tally_of_snoc [] app).
    + rewrite tally_of_snoc. reflexivity.
  - rewrite lookup_insert_ne by exact Hne. rewrite app_nil_r. exact IH.
Qed.

Lemma performance_lookup (ds : Dataset) (owner : string) :
  calculateRecruiterPerformance ds !! owner
  = match records_of owner (applicationDetails ds) with
    | [] => None
    | _ :: _ =>
        Some (Recruiter.with_rates (tally_of (records_of owner (applicationDetails ds))))
    end.
Proof.
  unfold calculateRecruiterPerformance. rewrite lookup_fmap, tallies_lookup.
  destruct (records_of owner _); reflexivity.
Qed.

Lemma rate_finite (n applications : nat) :
  (0 < applications)%nat ->
  JS.eqv (Recruiter.rate n applications)
         (JS.Finite (inject_Z (Z.of_nat n) / inject_Z (Z.of_nat applications) * 100)).
Proof.
  intros H. unfold Recruiter.rate, JS.of_nat.
  rewrite percentage_finite by lia. cbn [JS.eqv].
  rewrite !Qred_correct. reflexivity.
Qed.

(** C9. A group of the result has at least one record; its counters are
    the numbers of its records, of those viewed, interviewed and offered,
    and its three rates are count / applications * 100, a finite number.
    For two records of the same owner of which exactly one is viewed the
    view rate is 50. *)
Theorem recruiter_rates :
  forall (ds : Dataset) (owner : string) (s : Recruiter.t),
    calculateRecruiterPerformance ds !! owner = Some s ->
    (0 < Recruiter.applications s)%nat
    /\ Recruiter.applications s = length (records_of owner (applicationDetails ds))
    /\ Recruiter.viewed s
       = count_present "Viewed By" (records_of owner (applicationDetails ds))
    /\ Recruiter.interviewed s
       = count_present "Interview Date" (records_of owner (applicationDetails ds))
    /\ Recruiter.offered s
       = count_present "Offer Date" (records_of owner (applicationDetails ds))
    /\ JS.eqv (Recruiter.viewRate s)
              (JS.Finite (inject_Z (Z.of_nat (Recruiter.viewed s))
                          / inject_Z (Z.of_nat (Recruiter.applications s)) * 100))
    /\ JS.eqv (Recruiter.interviewRate s)
              (JS.Finite (inject_Z (Z.of_nat (Recruiter.interviewed s))
                          / inject_Z (Z.of_nat (Recruiter.applications s)) * 100))
    /\ JS.eqv (Recruiter.offerRate s)
              (JS.Finite (inject_Z (Z.of_nat (Recruiter.offered s))
                          / inject_Z (Z.of_nat (Recruiter.applications s)) * 100))
    /\ (forall r1 r2,
          applicationDetails ds = [r1; r2] ->
          owner_of r1 = owner -> owner_of r2 = owner ->
          truthy (get r1 "Viewed By") <> truthy (get r2 "Viewed By") ->
          Recruiter.viewRate s = JS.Finite 50).
Proof.
  intros ds owner s Hs. rewrite performance_lookup in Hs.
  destruct (records_of owner (applicationDetails ds)) as [|r rs] eqn:E;
    [discriminate Hs|].
  injection Hs as <-. cbn [Recruiter.with_rates Recruiter.applications Recruiter.viewed
      Recruiter.interviewed Recruiter.offered Recruiter.viewRate
      Recruiter.interviewRate Recruiter.offerRate tally_of
      Recruiter.t_applications Recruiter.t_viewed Recruiter.t_interviewed
      Recruiter.t_offered].
  assert (Hpos : (0 < length (r :: rs))%nat) by (simpl; lia).
  repeat (split; [first [exact Hpos | reflexivity | apply rate_finite, Hpos]|]).
  intros r1 r2 Hd H1 H2 Hv. rewrite Hd in E. unfold records_of in E.
  simpl in E. rewrite H1, H2, String.eqb_refl in E. rewrite <- E.
  unfold count_present. simpl.
  destruct (truthy (get r1 "Viewed By")), (truthy (get r2 "Viewed By"));
    try contradiction; reflexivity.
Qed.

Lemma recruiter_rates_witness :
  calculateRecruiterPerformance (with_applications no_data [ann_viewed; ann_not_viewed])
    !! "Ann"
  = Some {| Recruiter.applications := 2; Recruiter.viewed := 1;
            Recruiter.interviewed := 0; Recruiter.offered := 0;
            Recruiter.viewRate := JS.Finite 50;
            Recruiter.interviewRate := JS.Finite 0;
            Recruiter.offerRate := JS.Finite 0 |}
  /\ JS.eqv (JS.Finite 50) (JS.Finite (inject_Z (Z.of_nat 1) / inject_Z (Z.of_nat 2) * 100)).
Proof.
  assert (H : calculateRecruiterPerformance
                (with_applications no_data [ann_viewed; ann_not_viewed]) !! "Ann"
              = Some {| Recruiter.applications := 2; Recruiter.viewed := 1;
                        Recruiter.interviewed := 0; Recruiter.offered := 0;
                        Recruiter.viewRate := JS.Finite 50;
                        Recruiter.interviewRate := JS.Finite 0;
                        Recruiter.offerRate := JS.Finite 0 |}).
  { vm_compute. reflexivity. }
  split; [exact H|].
  exact (proj1 (proj2 (proj2 (proj2 (proj2 (proj2 (recruiter_rates _ _ _ H))))))).
Defined.

(** ** Viewed records and view dates *)

(** C10. The viewed count reads the field 'Viewed By' and the durations
    read the field 'Viewed Date': a record with the first and without the
    second adds one to the viewed count of the funnel and of its recruiter,
    and leaves the averages from application to view and from view to
    interview as they are. *)
Theorem viewed_counted_without_view_date :
  exists r : gmap string value,
    truthy (get r "Viewed By") = true
    /\ get r "Viewed Date" = Undefined
    /\ truthy (get r "Application Date") = true
    /\ truthy (get r "Interview Date") = true
    /\ forall (Date_parse : string -> number) (ds : Dataset),
         Funnel.viewed (calculateConversionFunnel
                          (with_applications ds (r :: applicationDetails ds)))
         = S (Funnel.viewed (calculateConversionFunnel ds))
         /\ (exists s,
               calculateRecruiterPerformance
                 (with_applications ds (r :: applicationDetails ds)) !! owner_of r = Some s
               /\ Recruiter.viewed s
                  = S (count_present "Viewed By"
                         (records_of (owner_of r) (applicationDetails ds))))
         /\ appToView (calculateTimeMetrics Date_parse
                         (with_applications ds (r :: applicationDetails ds)))
            = appToView (calculateTimeMetrics Date_parse ds)
         /\ viewToInterview (calculateTimeMetrics Date_parse
                               (with_applications ds (r :: applicationDetails ds)))
            = viewToInterview (calculateTimeMetrics Date_parse ds).
Proof.
  exists viewed_without_date.
  assert (Hv : truthy (get viewed_without_date "Viewed By") = true) by reflexivity.
  do 4 (split; [reflexivity|]).
  intros Date_parse ds. split; [|split; [|split]].
  - unfold calculateConversionFunnel, count_present.
    cbn [Funnel.viewed with_applications applicationDetails List.filter].
    rewrite Hv. reflexivity.
  - rewrite performance_lookup. unfold records_of.
    cbn [with_applications applicationDetails List.filter].
    rewrite String.eqb_refl. eexists. split; [reflexivity|].
    cbn [Recruiter.with_rates Recruiter.viewed tally_of Recruiter.t_viewed].
    unfold count_present. cbn [List.filter]. rewrite Hv. reflexivity.
  - unfold calculateTimeMetrics. cbn [appToView with_applications applicationDetails].
    apply calculateAverageDays_filter. reflexivity.
  - unfold calculateTimeMetrics. cbn [viewToInterview with_applications applicationDetails].
    apply calculateAverageDays_filter. reflexivity.
Qed.

(* ===================================================================== *)
(** * Further properties *)
(* ===================================================================== *)

(** ** Funnel *)

Lemma count_present_le (k : string) (data : list (gmap string value)) :
  (count_present k data <= length data)%nat.
Proof. unfold count_present. apply filter_length_le. Qed.

(** A count over a positive total is a finite ratio between 0 and 1. *)
Lemma ratio_unit (n total : nat) :
  (0 < total)%nat -> (n <= total)%nat ->
  exists q, JS.div (JS.of_nat n) (JS.of_nat total) = JS.Finite q
            /\ (0 <= q)%Q /\ (q <= 1)%Q.
Proof.
  intros Ht Hn. unfold JS.of_nat, JS.of_Z. cbn [JS.div]. rewrite Qzero_inject_Z.
  destruct (Z.eqb_spec (Z.of_nat total) 0) as [E | _]; [lia|].
  eexists. split; [reflexivity|].
  assert (H0 : (0 < inject_Z (Z.of_nat total))%Q) by (unfold Qlt; simpl; lia).
  rewrite Qred_correct. split.
  - apply Qle_shift_div_l; [exact H0|]. rewrite Qmult_0_l.
    unfold Qle. simpl. lia.
  - apply Qle_shift_div_r; [exact H0|]. rewrite Qmult_1_l.
    rewrite <- Zle_Qle. lia.
Qed.

(** X1. With at least one application record no stage count exceeds the
    number of applications and the four rates are finite numbers between 0
    and 1. *)
Theorem funnel_rates_in_unit_interval :
  forall ds : Dataset,
    applicationDetails ds <> [] ->
    Forall (fun n => (n <= Funnel.applications (calculateConversionFunnel ds))%nat)
           [Funnel.viewed (calculateConversionFunnel ds);
            Funnel.interviewed (calculateConversionFunnel ds);
            Funnel.offered (calculateConversionFunnel ds);
            Funnel.hired (calculateConversionFunnel ds)]
    /\ Forall (fun rate => exists q, rate = JS.Finite q /\ (0 <= q)%Q /\ (q <= 1)%Q)
              [Funnel.viewedRate (calculateConversionFunnel ds);
               Funnel.interviewRate (calculateConversionFunnel ds);
               Funnel.offerRate (calculateConversionFunnel ds);
               Funnel.hireRate (calculateConversionFunnel ds)].
Proof.
  intros ds Hne.
  assert (Hpos : (0 < length (applicationDetails ds))%nat).
  { destruct (applicationDetails ds); [contradiction | simpl; lia]. }
  unfold calculateConversionFunnel.
  cbn [Funnel.applications Funnel.viewed Funnel.interviewed Funnel.offered Funnel.hired
       Funnel.viewedRate Funnel.interviewRate Funnel.offerRate Funnel.hireRate].
  split; repeat constructor;
    first [apply count_present_le | apply ratio_unit; [exact Hpos | apply count_present_le]].
Qed.

Lemma funnel_rates_in_unit_interval_witness :
  Forall (fun n => (n <= Funnel.applications (calculateConversionFunnel all_rules_fire))%nat)
         [Funnel.viewed (calculateConversionFunnel all_rules_fire);
          Funnel.interviewed (calculateConversionFunnel all_rules_fire);
          Funnel.offered (calculateConversionFunnel all_rules_fire);
          Funnel.hired (calculateConversionFunnel all_rules_fire)]
  /\ Forall (fun rate => exists q, rate = JS.Finite q /\ (0 <= q)%Q /\ (q <= 1)%Q)
            [Funnel.viewedRate (calculateConversionFunnel all_rules_fire);
             Funnel.interviewRate (calculateConversionFunnel all_rules_fire);
             Funnel.offerRate (calculateConversionFunnel all_rules_fire);
             Funnel.hireRate (calculateConversionFunnel all_rules_fire)].
Proof.
  apply (funnel_rates_in_unit_interval all_rules_fire). discriminate.
Defined.

(** ** Alert rules *)







(** X4. The result holds at most four alerts, no two with the same title,
    and their severities never increase along the list: CRITICAL, then
    HIGH, then MEDIUM. *)
Theorem alerts_shape :
  forall ds : Dataset,
    (length (identifyCriticalIssues ds) <= 4)%nat
    /\ List.NoDup (map title (identifyCriticalIssues ds))
    /\ StronglySorted le
         (map (fun a => severity_rank (severity a)) (identifyCriticalIssues ds)).
Proof.
  intros ds. rewrite identifyCriticalIssues_pushes. unfold when.
  destruct (zero_hires _), (bottleneck _), (volume_decline _), (Nat.ltb 0 _);
    cbn [app map length title severity severity_rank
         zero_hires_alert bottleneck_alert volume_decline_alert stale_postings_alert];
    (split; [lia|]);
    (split;
     [ repeat (constructor; [simpl; intuition discriminate|]); constructor
     | repeat constructor ]).
Qed.

(** ** Stage durations *)

Lemma add_NaN_fold {A} (f : A -> number) (l : list A) :
  fold_left (fun sum x => JS.add sum (f x)) l JS.NaN = JS.NaN.
Proof. induction l as [|x l IH]; [reflexivity | exact IH]. Qed.

Lemma add_NaN_r (a : number) : JS.add a JS.NaN = JS.NaN.
Proof. destruct a; reflexivity. Qed.

Lemma days_between_NaN (Date_parse : string -> number) (startField endField : string)
      (r : gmap string value) :
  new_Date Date_parse (get r startField) = JS.NaN
  \/ new_Date Date_parse (get r endField) = JS.NaN ->
  days_between Date_parse startField endField r = JS.NaN.
Proof.
  unfold days_between, JS.sub. intros [-> | ->].
  - cbn [JS.neg]. rewrite add_NaN_r. reflexivity.
  - reflexivity.
Qed.

(** X5. A record that has both fields but one date that does not parse is
    neither skipped nor reported: it turns the whole average into NaN. *)
Theorem average_days_invalid_date :
  forall (Date_parse : string -> number) (data : list (gmap string value))
         (startField endField : string) (r : gmap string value),
    In r data ->
    has_both startField endField r = true ->
    new_Date Date_parse (get r startField) = JS.NaN
    \/ new_Date Date_parse (get r endField) = JS.NaN ->
    calculateAverageDays Date_parse data startField endField = JS.NaN.
Proof.
  intros Date_parse data startField endField r Hin Hb Hnan.
  unfold calculateAverageDays.
  assert (Hv : In r (List.filter (has_both startField endField) data)).
  { apply filter_In. split; assumption. }
  destruct (in_split _ _ Hv) as (l1 & l2 & E). rewrite E.
  destruct (Nat.eqb_spec (length (l1 ++ r :: l2)) 0) as [H0 | _].
  { rewrite length_app in H0. simpl in H0. lia. }
  rewrite fold_left_app. simpl fold_left.
  rewrite (days_between_NaN _ _ _ _ Hnan), add_NaN_r, add_NaN_fold.
  reflexivity.
Qed.

Lemma average_days_invalid_date_witness :
  calculateAverageDays IsoDate.parse
    [record_a_b; {[ "a" := Str "2024-01-01"; "b" := Str "soon" ]}] "a" "b" = JS.NaN.
Proof.
  apply (average_days_invalid_date IsoDate.parse _ "a" "b"
           {[ "a" := Str "2024-01-01"; "b" := Str "soon" ]}).
  - right. left. reflexivity.
  - reflexivity.
  - right. reflexivity.
Defined.

Lemma Qsum_nonneg (l : list Q) :
  List.Forall (fun x => 0 <= x)%Q l -> (0 <= Qsum l)%Q.
Proof.
  induction 1 as [|x l Hx _ IH]; [apply Qle_refl|].
  cbn [Qsum fold_right]. fold (Qsum l).
  replace 0%Q with (0 + 0)%Q by reflexivity. apply Qplus_le_compat; assumption.
Qed.

Lemma Qsum_neg (l : list Q) :
  l <> [] -> List.Forall (fun x => x < 0)%Q l -> (Qsum l < 0)%Q.
Proof.
  intros Hne H. induction H as [|x l Hx Hl IH]; [contradiction|].
  cbn [Qsum fold_right]. fold (Qsum l).
  destruct l as [|y l].
  - simpl. rewrite Qplus_0_r. exact Hx.
  - replace 0%Q with (0 + 0)%Q by reflexivity.
    apply Qplus_lt_le_compat; [exact Hx|]. apply Qlt_le_weak, IH. discriminate.
Qed.

(** The average over records whose dates parse is the mean of their
    durations. *)
Lemma average_days_mean (Date_parse : string -> number) (data : list (gmap string value))
      (startField endField : string) (start_ms end_ms : gmap string value -> Q) :
  (forall r, In r data -> has_both startField endField r = true ->
     new_Date Date_parse (get r startField) = JS.Finite (start_ms r)
     /\ new_Date Date_parse (get r endField) = JS.Finite (end_ms r)) ->
  List.filter (has_both startField endField) data <> [] ->
  exists q,
    calculateAverageDays Date_parse data startField endField = JS.Finite q
    /\ (q == Qsum (map (fun r => days_of (start_ms r) (end_ms r))
                       (List.filter (has_both startField endField) data))
              / inject_Z (Z.of_nat (length (List.filter (has_both startField endField) data))))%Q.
Proof.
  intros Hdates Hne. unfold calculateAverageDays.
  set (valid := List.filter (has_both startField endField) data) in *.
  destruct (Nat.eqb_spec (length valid) 0) as [E | Hlen].
  { destruct valid; [contradiction | discriminate E]. }
  destruct (total_days_finite Date_parse startField endField start_ms end_ms valid 0)
    as (q & Eq & Hq).
  { intros r Hr. apply filter_In in Hr as [Hin Hr]. apply Hdates; assumption. }
  unfold JS.of_Z at 1. change (inject_Z 0) with 0%Q. rewrite Eq.
  unfold JS.of_nat, JS.of_Z. cbn [JS.div]. rewrite Qzero_inject_Z.
  destruct (Z.eqb_spec (Z.of_nat (length valid)) 0) as [E | _]; [lia|].
  eexists. split; [reflexivity|].
  rewrite Qred_correct, Hq, Qplus_0_l. reflexivity.
Qed.

(** X6. No duration is rejected for its sign.  When the dates of the
    records that have both fields parse, the average is a finite number;
    it is negative if every end date precedes its start date and it is not
    negative if no end date does. *)
Theorem average_days_sign :
  forall (Date_parse : string -> number) (data : list (gmap string value))
         (startField endField : string)
         (start_ms end_ms : gmap string value -> Q),
    (forall r, In r data -> has_both startField endField r = true ->
       new_Date Date_parse (get r startField) = JS.Finite (start_ms r)
       /\ new_Date Date_parse (get r endField) = JS.Finite (end_ms r)) ->
    List.filter (has_both startField endField) data <> [] ->
    exists q,
      calculateAverageDays Date_parse data startField endField = JS.Finite q
      /\ ((forall r, In r data -> has_both startField endField r = true ->
             (end_ms r < start_ms r)%Q) -> (q < 0)%Q)
      /\ ((forall r, In r data -> has_both startField endField r = true ->
             (start_ms r <= end_ms r)%Q) -> (0 <= q)%Q).
Proof.
  intros Date_parse data startField endField start_ms end_ms Hdates Hne.
  destruct (average_days_mean Date_parse data startField endField start_ms end_ms
              Hdates Hne) as (q & Eq & Hq).
  exists q. split; [exact Eq|].
  set (valid := List.filter (has_both startField endField) data) in *.
  assert (Hn : (0 < inject_Z (Z.of_nat (length valid)))%Q).
  { destruct valid; [contradiction|]. unfold Qlt. simpl. lia. }
  assert (Hd : (0 < 86400000)%Q) by reflexivity.
  split; intros H; rewrite Hq.
  - apply Qlt_shift_div_r; [exact Hn|]. rewrite Qmult_0_l.
    apply Qsum_neg.
    + destruct valid; [contradiction | discriminate].
    + apply List.Forall_forall. intros x Hx. apply in_map_iff in Hx as (r & <- & Hr).
      apply filter_In in Hr as [Hin Hr]. unfold days_of.
      apply Qlt_shift_div_r; [exact Hd|]. rewrite Qmult_0_l.
      rewrite <- (Qplus_opp_r (start_ms r)). apply Qplus_lt_l. apply H; assumption.
  - apply Qle_shift_div_l; [exact Hn|]. rewrite Qmult_0_l.
    apply Qsum_nonneg.
    apply List.Forall_forall. intros x Hx. apply in_map_iff in Hx as (r & <- & Hr).
    apply filter_In in Hr as [Hin Hr]. unfold days_of.
    apply Qle_shift_div_l; [exact Hd|]. rewrite Qmult_0_l.
    rewrite <- (Qplus_opp_r (start_ms r)). apply Qplus_le_l. apply H; assumption.
Qed.

Lemma average_days_sign_witness :
  exists q,
    calculateAverageDays IsoDate.parse [record_a_b; record_a_only] "b" "a" = JS.Finite q
    /\ ((forall r, In r [record_a_b; record_a_only] -> has_both "b" "a" r = true ->
           (inject_Z 1704067200000 < inject_Z 1704412800000)%Q) -> (q < 0)%Q)
    /\ ((forall r, In r [record_a_b; record_a_only] -> has_both "b" "a" r = true ->
           (inject_Z 1704412800000 <= inject_Z 1704067200000)%Q) -> (0 <= q)%Q).
Proof.
  apply (average_days_sign IsoDate.parse [record_a_b; record_a_only] "b" "a"
           (fun _ => inject_Z 1704412800000) (fun _ => inject_Z 1704067200000)).
  - intros r [<- | [<- | []]] Hb; [split; reflexivity | discriminate Hb].
  - discriminate.
Defined.

(** ** The status chart and the pipeline breakdown *)

Lemma insert_status_perm (a : StatusAggregate) (l : list StatusAggregate) :
  Permutation (insert_status a l) (a :: l).
Proof.
  induction l as [|b l IH]; simpl; [reflexivity|].
  destruct (Applicants b <=? Applicants a); [reflexivity|].
  rewrite IH. apply perm_swap.
Qed.

Lemma sort_by_Applicants_perm (l : list StatusAggregate) :
  Permutation (sort_by_Applicants l) l.
Proof.
  induction l as [|a l IH]; simpl; [reflexivity|].
  rewrite insert_status_perm, IH. reflexivity.
Qed.

Lemma insert_status_sorted (a : StatusAggregate) (l : list StatusAggregate) :
  StronglySorted (fun x y => Applicants y <= Applicants x) l ->
  StronglySorted (fun x y => Applicants y <= Applicants x) (insert_status a l).
Proof.
  induction 1 as [|b l Hl IH Hb]; simpl.
  - repeat constructor.
  - destruct (Z.leb_spec (Applicants b) (Applicants a)) as [Hle | Hlt].
    + constructor; [constructor; assumption|].
      constructor; [exact Hle|].
      eapply List.Forall_impl; [|exact Hb]. simpl. intros c Hc. lia.
    + constructor; [exact IH|].
      apply List.Forall_forall. intros c Hc.
      apply (Permutation_in _ (insert_status_perm a l)) in Hc.
      destruct Hc as [<- | Hc]; [lia|].
      rewrite List.Forall_forall in Hb. apply Hb, Hc.
Qed.

Lemma sort_by_Applicants_sorted (l : list StatusAggregate) :
  StronglySorted (fun x y => Applicants y <= Applicants x) (sort_by_Applicants l).
Proof.
  induction l as [|a l IH]; simpl; [constructor|].
  apply insert_status_sorted, IH.
Qed.

(** The entries with a given count keep their order. *)
Lemma insert_status_stable (n : Z) (a : StatusAggregate) (l : list StatusAggregate) :
  List.filter (fun s => Applicants s =? n) (insert_status a l)
  = List.filter (fun s => Applicants s =? n) (a :: l).
Proof.
  induction l as [|b l IH]; [reflexivity|].
  cbn [insert_status].
  destruct (Z.leb_spec (Applicants b) (Applicants a)) as [Hle | Hlt]; [reflexivity|].
  cbn [List.filter] in *. rewrite IH.
  destruct (Z.eqb_spec (Applicants a) n), (Z.eqb_spec (Applicants b) n);
    try reflexivity; lia.
Qed.

Lemma sort_by_Applicants_stable (n : Z) (l : list StatusAggregate) :
  List.filter (fun s => Applicants s =? n) (sort_by_Applicants l)
  = List.filter (fun s => Applicants s =? n) l.
Proof.
  induction l as [|a l IH]; [reflexivity|].
  cbn [sort_by_Applicants fold_right]. fold (sort_by_Applicants l).
  rewrite insert_status_stable. cbn [List.filter]. rewrite IH. reflexivity.
Qed.

(** X7. The status chart sorts the status collection of the dataset in
    place: the collection it leaves behind holds the same entries, by
    decreasing count, entries with the same count in their former order;
    the chart is given the labels and the counts in that order and the
    other collections are untouched. *)
Theorem renderStatusChart_sorts :
  forall ds : Dataset,
    Permutation (applicantsByStatus (fst (renderStatusChart ds))) (applicantsByStatus ds)
    /\ StronglySorted (fun x y => Applicants y <= Applicants x)
                      (applicantsByStatus (fst (renderStatusChart ds)))
    /\ (forall n,
          List.filter (fun s => Applicants s =? n)
                      (applicantsByStatus (fst (renderStatusChart ds)))
          = List.filter (fun s => Applicants s =? n) (applicantsByStatus ds))
    /\ status_labels (snd (renderStatusChart ds))
       = map Application_State (applicantsByStatus (fst (renderStatusChart ds)))
    /\ status_data (snd (renderStatusChart ds))
       = map Applicants (applicantsByStatus (fst (renderStatusChart ds)))
    /\ StronglySorted Z.ge (status_data (snd (renderStatusChart ds)))
    /\ applicationDetails (fst (renderStatusChart ds)) = applicationDetails ds
    /\ applicationsOverTime (fst (renderStatusChart ds)) = applicationsOverTime ds
    /\ byTeamJob (fst (renderStatusChart ds)) = byTeamJob ds.
Proof.
  intros ds. unfold renderStatusChart.
  cbn [fst snd with_statuses applicantsByStatus status_labels status_data
       applicationDetails applicationsOverTime byTeamJob].
  split; [apply sort_by_Applicants_perm|].
  split; [apply sort_by_Applicants_sorted|].
  split; [intros n; apply sort_by_Applicants_stable|].
  do 2 (split; [reflexivity|]).
  split; [|repeat split].
  pose proof (sort_by_Applicants_sorted (applicantsByStatus ds)) as H.
  induction H as [|a l _ IH Ha]; [constructor|].
  cbn [map]. constructor; [exact IH|].
  rewrite List.Forall_map. eapply List.Forall_impl; [|exact Ha].
  simpl. intros c Hc. lia.
Qed.

Lemma sum_filter_perm (p : StatusAggregate -> bool) (l l' : list StatusAggregate) :
  Permutation l l' ->
  sum_Applicants (List.filter p l) = sum_Applicants (List.filter p l').
Proof.
  induction 1 as [|a l l' _ IH|a b l|l l' l'' _ IH1 _ IH2].
  - reflexivity.
  - rewrite !sum_filter_cons, IH. reflexivity.
  - rewrite !sum_filter_cons. lia.
  - rewrite IH1. exact IH2.
Qed.

Lemma sum_Applicants_perm (l l' : list StatusAggregate) :
  Permutation l l' -> sum_Applicants l = sum_Applicants l'.
Proof.
  intros H. pose proof (sum_filter_perm (fun _ => true) l l' H) as E.
  rewrite !List.filter_true in E. exact E.
Qed.

Lemma breakdown_perm (ds ds' : Dataset) :
  Permutation (applicantsByStatus ds) (applicantsByStatus ds') ->
  calculatePipelineBreakdown ds = calculatePipelineBreakdown ds'.
Proof.
  intros H. unfold calculatePipelineBreakdown, bucket_of.
  rewrite (sum_Applicants_perm _ _ H).
  rewrite !(sum_filter_perm _ _ _ H). reflexivity.
Qed.

(** X8. The breakdown does not depend on the order of the status
    collection, so the sort of the status chart, which runs before the
    pipeline section is filled, changes neither the breakdown nor the
    alerts. *)
Theorem breakdown_after_status_chart :
  forall ds : Dataset,
    (forall l, Permutation l (applicantsByStatus ds) ->
       calculatePipelineBreakdown (with_statuses ds l) = calculatePipelineBreakdown ds)
    /\ calculatePipelineBreakdown (fst (renderStatusChart ds))
       = calculatePipelineBreakdown ds
    /\ identifyCriticalIssues (fst (renderStatusChart ds)) = identifyCriticalIssues ds.
Proof.
  intros ds.
  assert (Hp : forall l, Permutation l (applicantsByStatus ds) ->
             calculatePipelineBreakdown (with_statuses ds l) = calculatePipelineBreakdown ds).
  { intros l Hl. apply breakdown_perm. exact Hl. }
  split; [exact Hp|].
  assert (Hb : calculatePipelineBreakdown (fst (renderStatusChart ds))
               = calculatePipelineBreakdown ds).
  { apply Hp, sort_by_Applicants_perm. }
  split; [exact Hb|].
  unfold identifyCriticalIssues. rewrite Hb. reflexivity.
Qed.

(** X9. For non-negative counts with a positive sum every category
    percentage is a finite number between 0 and 100. *)
Theorem breakdown_percentages_in_range :
  forall ds : Dataset,
    Forall (fun s => 0 <= Applicants s) (applicantsByStatus ds) ->
    0 < sum_Applicants (applicantsByStatus ds) ->
    Forall (fun b => exists q, percentage b = JS.Finite q /\ (0 <= q)%Q /\ (q <= 100)%Q)
           (buckets (calculatePipelineBreakdown ds)).
Proof.
  intros ds Hpos Htot.
  assert (Hb : forall statuses,
            exists q,
              percentage (bucket_of (applicantsByStatus ds)
                                    (sum_Applicants (applicantsByStatus ds)) statuses)
              = JS.Finite q /\ (0 <= q)%Q /\ (q <= 100)%Q).
  { intros statuses. unfold bucket_of. cbn [percentage].
    set (p := fun s => includes statuses (Application_State s)).
    pose proof (sum_filter_le p _ Hpos) as Hle.
    pose proof (sum_filter_nonneg p _ Hpos) as Hge.
    rewrite percentage_finite by lia. eexists. split; [reflexivity|].
    rewrite !Qred_correct. split; [|apply ratio_le_100; lia].
    apply Qmult_le_0_compat; [|discriminate].
    apply Qle_shift_div_l; [unfold Qlt; simpl; lia|].
    rewrite Qmult_0_l. unfold Qle. simpl. lia. }
  unfold buckets, calculatePipelineBreakdown.
  cbn [earlyStage activeEngagement advancedStage closed].
  repeat constructor; apply Hb.
Qed.

Lemma breakdown_percentages_in_range_witness :
  Forall (fun b => exists q, percentage b = JS.Finite q /\ (0 <= q)%Q /\ (q <= 100)%Q)
         (buckets (calculatePipelineBreakdown all_rules_fire)).
Proof.
  apply (breakdown_percentages_in_range all_rules_fire).
  - repeat constructor; discriminate.
  - reflexivity.
Defined.

(** ** Groups of records *)

Section FoldSum.

Context {A : Type} (g : string -> A -> nat -> nat) (f : A -> nat).
Hypothesis g_sum : forall k v acc, g k v acc = (f v + acc)%nat.



End FoldSum.






Lemma rate_in_range (n applications : nat) :
  (0 < applications)%nat -> (n <= applications)%nat ->
  exists q, Recruiter.rate n applications = JS.Finite q /\ (0 <= q)%Q /\ (q <= 100)%Q.
Proof.
  intros Ha Hn. unfold Recruiter.rate, JS.of_nat.
  rewrite percentage_finite by lia. eexists. split; [reflexivity|].
  rewrite !Qred_correct. split; [|apply ratio_le_100; lia].
  apply Qmult_le_0_compat; [|discriminate].
  apply Qle_shift_div_l; [unfold Qlt; simpl; lia|].
  rewrite Qmult_0_l. unfold Qle. simpl. lia.
Qed.

(** X11. In every group the viewed, interviewed and offered counts are at
    most the applications of the group and the three rates are finite
    numbers between 0 and 100. *)
Theorem recruiter_group_bounds :
  forall (ds : Dataset) (owner : string) (s : Recruiter.t),
    calculateRecruiterPerformance ds !! owner = Some s ->
    (Recruiter.viewed s <= Recruiter.applications s)%nat
    /\ (Recruiter.interviewed s <= Recruiter.applications s)%nat
    /\ (Recruiter.offered s <= Recruiter.applications s)%nat
    /\ Forall (fun rate => exists q, rate = JS.Finite q /\ (0 <= q)%Q /\ (q <= 100)%Q)
              [Recruiter.viewRate s; Recruiter.interviewRate s; Recruiter.offerRate s].
Proof.
  intros ds owner s Hs. rewrite performance_lookup in Hs.
  destruct (records_of owner (applicationDetails ds)) as [|r rs] eqn:E;
    [discriminate Hs|].
  injection Hs as <-.
  cbn [Recruiter.with_rates Recruiter.applications Recruiter.viewed
       Recruiter.interviewed Recruiter.offered Recruiter.viewRate
       Recruiter.interviewRate Recruiter.offerRate tally_of
       Recruiter.t_applications Recruiter.t_viewed Recruiter.t_interviewed
       Recruiter.t_offered].
  assert (Hpos : (0 < length (r :: rs))%nat) by (simpl; lia).
  do 3 (split; [apply count_present_le|]).
  repeat constructor; apply rate_in_range; first [exact Hpos | apply count_present_le].
Qed.

Lemma recruiter_group_bounds_witness :
  (1 <= 2)%nat /\ (0 <= 2)%nat /\ (0 <= 2)%nat
  /\ Forall (fun rate => exists q, rate = JS.Finite q /\ (0 <= q)%Q /\ (q <= 100)%Q)
            [JS.Finite 50; JS.Finite 0; JS.Finite 0].
Proof.
  exact (recruiter_group_bounds
           (with_applications no_data [ann_viewed; ann_not_viewed]) "Ann"
           {| Recruiter.applications := 2; Recruiter.viewed := 1;
              Recruiter.interviewed := 0; Recruiter.offered := 0;
              Recruiter.viewRate := JS.Finite 50;
              Recruiter.interviewRate := JS.Finite 0;
              Recruiter.offerRate := JS.Finite 0 |}
           eq_refl).
Defined.



(** ** The job type chart *)





(** ** The header *)

Lemma min2_NaN_fold (l : list number) : fold_left min2 l JS.NaN = JS.NaN.
Proof. induction l as [|x l IH]; [reflexivity | exact IH]. Qed.

Lemma max2_NaN_fold (l : list number) : fold_left max2 l JS.NaN = JS.NaN.
Proof. induction l as [|x l IH]; [reflexivity | exact IH]. Qed.

Lemma min2_NaN_r (a : number) : min2 a JS.NaN = JS.NaN.
Proof. destruct a; reflexivity. Qed.

Lemma max2_NaN_r (a : number) : max2 a JS.NaN = JS.NaN.
Proof. destruct a; reflexivity. Qed.

Lemma Math_min_NaN (values : list number) : In JS.NaN values -> Math_min values = JS.NaN.
Proof.
  intros H. destruct (in_split _ _ H) as (l1 & l2 & ->).
  unfold Math_min. rewrite fold_left_app. simpl.
  rewrite min2_NaN_r. apply min2_NaN_fold.
Qed.

Lemma Math_max_NaN (values : list number) : In JS.NaN values -> Math_max values = JS.NaN.
Proof.
  intros H. destruct (in_split _ _ H) as (l1 & l2 & ->).
  unfold Math_max. rewrite fold_left_app. simpl.
  rewrite max2_NaN_r. apply max2_NaN_fold.
Qed.

(** X14. With no application record, or with one whose application date is
    missing or does not parse, both ends of the period in the header are
    invalid dates. *)
Theorem header_invalid_dates :
  forall (Date_parse : string -> number) (ds : Dataset),
    applicationDetails ds = []
    \/ (exists r, In r (applicationDetails ds)
                  /\ new_Date Date_parse (get r "Application Date") = JS.NaN) ->
    minDate Date_parse ds = JS.NaN /\ maxDate Date_parse ds = JS.NaN.
Proof.
  intros Date_parse ds [E | (r & Hin & Hr)]; unfold minDate, maxDate, application_dates.
  - rewrite E. split; reflexivity.
  - assert (H : In JS.NaN (map (fun d => new_Date Date_parse (get d "Application Date"))
                               (applicationDetails ds))).
    { apply in_map_iff. exists r. split; assumption. }
    rewrite (Math_min_NaN _ H), (Math_max_NaN _ H). split; reflexivity.
Qed.

Lemma header_invalid_dates_witness :
  minDate IsoDate.parse (with_applications no_data [viewed_without_date; ann_viewed]) = JS.NaN
  /\ maxDate IsoDate.parse (with_applications no_data [viewed_without_date; ann_viewed])
     = JS.NaN.
Proof.
  apply (header_invalid_dates IsoDate.parse
           (with_applications no_data [viewed_without_date; ann_viewed])).
  right. exists ann_viewed. split; [right; left; reflexivity | reflexivity].
Defined.

Lemma min2_of_Z (a b : Z) : min2 (JS.of_Z a) (JS.of_Z b) = JS.of_Z (Z.min a b).
Proof.
  unfold min2, JS.of_Z, JS.lt, JS.Qltb. simpl.
  rewrite !Z.mul_1_r. destruct (Z.ltb_spec b a).
  - rewrite Z.min_r by lia. reflexivity.
  - rewrite Z.min_l by lia. reflexivity.
Qed.

Lemma max2_of_Z (a b : Z) : max2 (JS.of_Z a) (JS.of_Z b) = JS.of_Z (Z.max a b).
Proof.
  unfold max2, JS.of_Z, JS.lt, JS.Qltb. simpl.
  rewrite !Z.mul_1_r. destruct (Z.ltb_spec a b).
  - rewrite Z.max_r by lia. reflexivity.
  - rewrite Z.max_l by lia. reflexivity.
Qed.

Lemma fold_min2_of_Z (zs : list Z) (a : Z) :
  exists lo, fold_left min2 (map JS.of_Z zs) (JS.of_Z a) = JS.of_Z lo
             /\ In lo (a :: zs) /\ List.Forall (fun z => lo <= z) (a :: zs).
Proof.
  revert a. induction zs as [|z zs IH]; intros a.
  - exists a. split; [reflexivity|]. split; [left; reflexivity|].
    constructor; [lia | constructor].
  - cbn [map fold_left]. rewrite min2_of_Z. destruct (IH (Z.min a z)) as (lo & E & Hin & Hall).
    exists lo. split; [exact E|].
    apply List.Forall_cons_iff in Hall as [Hm Hall]. split.
    + destruct Hin as [<- | Hin]; [|right; right; exact Hin].
      destruct (Z.min_spec a z) as [[_ ->] | [_ ->]]; [left | right; left]; reflexivity.
    + constructor; [lia|]. constructor; [lia | exact Hall].
Qed.

Lemma fold_max2_of_Z (zs : list Z) (a : Z) :
  exists hi, fold_left max2 (map JS.of_Z zs) (JS.of_Z a) = JS.of_Z hi
             /\ In hi (a :: zs) /\ List.Forall (fun z => z <= hi) (a :: zs).
Proof.
  revert a. induction zs as [|z zs IH]; intros a.
  - exists a. split; [reflexivity|]. split; [left; reflexivity|].
    constructor; [lia | constructor].
  - cbn [map fold_left]. rewrite max2_of_Z. destruct (IH (Z.max a z)) as (hi & E & Hin & Hall).
    exists hi. split; [exact E|].
    apply List.Forall_cons_iff in Hall as [Hm Hall]. split.
    + destruct Hin as [<- | Hin]; [|right; right; exact Hin].
      destruct (Z.max_spec a z) as [[_ ->] | [_ ->]]; [right; left | left]; reflexivity.
    + constructor; [lia|]. constructor; [lia | exact Hall].
Qed.

Lemma TimeClip_of_Z (z : Z) :
  - max_time <= z <= max_time -> TimeClip (JS.of_Z z) = JS.of_Z z.
Proof.
  intros Hz. unfold TimeClip, JS.of_Z.
  destruct (Qle_bool (Qabs (inject_Z z)) (inject_Z max_time)) eqn:E.
  - simpl. rewrite Z.quot_1_r. reflexivity.
  - exfalso. apply not_true_iff_false in E. apply E.
    apply Qle_bool_iff. unfold Qle. simpl. lia.
Qed.

(** X15. When every application date parses to a time value in the range
    of dates, the period of the header starts at the earliest and ends at
    the latest of the application dates. *)
Theorem header_period :
  forall (Date_parse : string -> number) (ds : Dataset) (times : list Z),
    application_dates Date_parse ds = map JS.of_Z times ->
    times <> [] ->
    List.Forall (fun z => - max_time <= z <= max_time) times ->
    exists lo hi,
      minDate Date_parse ds = JS.of_Z lo
      /\ maxDate Date_parse ds = JS.of_Z hi
      /\ In lo times /\ In hi times
      /\ List.Forall (fun z => lo <= z <= hi) times.
Proof.
  intros Date_parse ds times E Hne Hrange. unfold minDate, maxDate. rewrite E.
  destruct times as [|z zs]; [contradiction|].
  unfold Math_min, Math_max. cbn [map fold_left].
  change (min2 JS.PosInf (JS.of_Z z)) with (JS.of_Z z).
  change (max2 JS.NegInf (JS.of_Z z)) with (JS.of_Z z).
  destruct (fold_min2_of_Z zs z) as (lo & -> & Hlo & Hmin).
  destruct (fold_max2_of_Z zs z) as (hi & -> & Hhi & Hmax).
  rewrite List.Forall_forall in Hrange, Hmin, Hmax.
  exists lo, hi. rewrite !TimeClip_of_Z by (apply Hrange; assumption).
  repeat (split; [first [reflexivity | assumption]|]).
  apply List.Forall_forall. intros x Hx. split; [apply Hmin | apply Hmax]; exact Hx.
Qed.

Lemma header_period_witness :
  exists lo hi,
    minDate IsoDate.parse
      (with_applications no_data
         [ {[ "Application Date" := Str "2024-01-05" ]};
           {[ "Application Date" := Str "2024-01-01" ]} ]) = JS.of_Z lo
    /\ maxDate IsoDate.parse
         (with_applications no_data
            [ {[ "Application Date" := Str "2024-01-05" ]};
              {[ "Application Date" := Str "2024-01-01" ]} ]) = JS.of_Z hi
    /\ In lo [1704412800000; 1704067200000] /\ In hi [1704412800000; 1704067200000]
    /\ List.Forall (fun z => lo <= z <= hi) [1704412800000; 1704067200000].
Proof.
  apply (header_period IsoDate.parse _ [1704412800000; 1704067200000]).
  - reflexivity.
  - discriminate.
  - repeat constructor; unfold max_time; lia.
Defined.

(** ** The alerts section *)

Lemma alert_html_head (alert : Alert) :
  exists rest, alert_html alert = String "010"%char rest.
Proof. eexists. unfold alert_html, nl. reflexivity. Qed.

Lemma join_head (x : string) (xs : list string) (c : ascii) (rest : string) :
  x = String c rest -> exists rest', String.concat "" (x :: xs) = String c rest'.
Proof.
  intros ->. destruct xs as [|y ys]; eexists; reflexivity.
Qed.

(** X16. The alerts section shows the "All Clear" block exactly when the
    evaluator returns no alert, that is when no rule fires; otherwise it
    shows the blocks of the alerts, which differ from "All Clear", and it
    is never left empty. *)
Theorem all_clear_iff_no_alert :
  forall ds : Dataset,
    (displayCriticalAlerts ds = all_clear_html <-> identifyCriticalIssues ds = [])
    /\ (displayCriticalAlerts ds = all_clear_html
        <-> forall r, In r (rules ds) -> fst r = false)
    /\ (identifyCriticalIssues ds <> [] ->
        displayCriticalAlerts ds
        = String.concat "" (map alert_html (identifyCriticalIssues ds)))
    /\ displayCriticalAlerts ds <> "".
Proof.
  intros ds.
  assert (Hiff : displayCriticalAlerts ds = all_clear_html
                 <-> identifyCriticalIssues ds = []).
  { unfold displayCriticalAlerts.
    destruct (identifyCriticalIssues ds) as [|a l]; [tauto|].
    cbn [length Nat.eqb map]. split; [|discriminate].
    destruct (alert_html_head a) as (rest & Ha).
    destruct (join_head _ (map alert_html l) _ _ Ha) as (rest' & ->).
    intros H. discriminate H. }
  split; [exact Hiff|]. split.
  - rewrite Hiff, identifyCriticalIssues_rules. apply no_rule_fires.
  - split.
    + unfold displayCriticalAlerts.
      destruct (identifyCriticalIssues ds); [contradiction | reflexivity].
    + unfold displayCriticalAlerts.
      destruct (identifyCriticalIssues ds) as [|a l]; [discriminate|].
      cbn [length Nat.eqb map].
      destruct (alert_html_head a) as (rest & Ha).
      destruct (join_head _ (map alert_html l) _ _ Ha) as (rest' & ->).
      discriminate.
Qed.

(** ** The job performance table *)

Lemma Qzero_eq (q : Q) : JS.Qzero q = true <-> (q == 0)%Q.
Proof. unfold JS.Qzero, Qeq. simpl. rewrite Z.eqb_eq. lia. Qed.

(** X17. For a job that has been open for 0 days the applications per day
    are a division by zero, which the table prints as it comes:
    "Infinity" when the job has applicants, "NaN" when it has none. *)
Theorem appsPerDay_zero_days :
  forall j : JobAggregate,
    (Days_Open j == 0)%Q ->
    (0 < Total_Applicants j -> appsPerDay j = "Infinity")
    /\ (Total_Applicants j = 0 -> appsPerDay j = "NaN")
    /\ (Total_Applicants j < 0 -> appsPerDay j = "-Infinity").
Proof.
  intros j Hd. apply Qzero_eq in Hd. unfold appsPerDay, JS.of_Z. cbn [JS.div].
  rewrite Hd, Qzero_inject_Z. unfold JS.inf_signed, JS.Qneg. cbn [xorb Qnum inject_Z].
  repeat split; intros H.
  - destruct (Z.eqb_spec (Total_Applicants j) 0); [lia|].
    destruct (Z.ltb_spec (Total_Applicants j) 0); [lia | reflexivity].
  - rewrite H. reflexivity.
  - destruct (Z.eqb_spec (Total_Applicants j) 0); [lia|].
    destruct (Z.ltb_spec (Total_Applicants j) 0); [reflexivity | lia].
Qed.

Lemma appsPerDay_zero_days_witness :
  (0 < Total_Applicants (job 3 0) -> appsPerDay (job 3 0) = "Infinity")
  /\ (Total_Applicants (job 3 0) = 0 -> appsPerDay (job 3 0) = "NaN")
  /\ (Total_Applicants (job 3 0) < 0 -> appsPerDay (job 3 0) = "-Infinity").
Proof.
  apply (appsPerDay_zero_days (job 3 0)). reflexivity.
Defined.

(** ** Key metrics *)

(** X18. With no application record the key metrics show 0 applications,
    "NaN%" for each of the four rates and "0.0 days" for the time to offer,
    whatever the other collections hold. *)
Theorem key_metrics_of_no_record :
  forall (Date_parse : string -> number) (ds : Dataset),
    applicationDetails ds = [] ->
    updateKeyMetrics Date_parse ds
    = {| KeyMetrics.totalApplications := "0";
         KeyMetrics.viewedRate := "NaN%";
         KeyMetrics.interviewRate := "NaN%";
         KeyMetrics.offerRate := "NaN%";
         KeyMetrics.hireRate := "NaN%";
         KeyMetrics.avgTimeToOffer := "0.0 days" |}.
Proof.
  intros Date_parse ds E.
  unfold updateKeyMetrics, calculateConversionFunnel, calculateTimeMetrics.
  rewrite E. reflexivity.
Qed.

Lemma key_metrics_of_no_record_witness :
  updateKeyMetrics IsoDate.parse no_data
  = {| KeyMetrics.totalApplications := "0";
       KeyMetrics.viewedRate := "NaN%";
       KeyMetrics.interviewRate := "NaN%";
       KeyMetrics.offerRate := "NaN%";
       KeyMetrics.hireRate := "NaN%";
       KeyMetrics.avgTimeToOffer := "0.0 days" |}.
Proof.
  apply (key_metrics_of_no_record IsoDate.parse no_data). reflexivity.
Defined.
